(** * Optiland: pupil distributions and design variables

    A shallow embedding of [optiland/distribution.py] and
    [optiland/variable.py].

    - Python [int]s are [Z]; list indices follow Python (negative indices
      count from the end, out of range raises [IndexError]).
    - NumPy arrays of [float64] are lists of binary64 floats, and every
      arithmetic step on them is the IEEE 754 operation: module [binary64]
      holds [np.linspace] as NumPy computes it and the distributions built
      on it.  [np.cos] and [np.sin] are the platform's; the functions that
      call them take them as parameters.
    - The Gaussian quadrature tables are binary64 constants and the scaling
      [weights *= 6.0] is the IEEE product.
    - The line and hexagonal distributions are also read over the real
      numbers (modules [np], [LineXDistribution], [LineYDistribution],
      [HexagonalDistribution], [BaseDistribution]): the values the NumPy
      expressions denote before rounding.
    - A raised exception is the left summand of [result].
    - [view] is plotting only and is left out, and so is
      [RandomDistribution.generate_points], whose samples come from
      NumPy's generator. *)

From Stdlib Require Import String Ascii ZArith List Bool Lia.
From Stdlib Require Import DecimalString.
From Stdlib Require Import Reals Lra Floats.
Import ListNotations.

Set Warnings "-inexact-float".
Set Implicit Arguments.

(** ** Exceptions and the error monad *)

Inductive exn : Type :=
| ValueError (msg : string)
| TypeError
| AttributeError
| IndexError
| KeyError.

Definition result (A : Type) : Type := (exn + A)%type.

Definition Raise {A : Type} (e : exn) : result A := inl e.
Definition Return {A : Type} (a : A) : result A := inr a.

Definition bind {A B : Type} (c : result A) (k : A -> result B) : result B :=
  match c with
  | inl e => inl e
  | inr a => k a
  end.

Notation "x <- c ;; k" := (bind c (fun x => k))
  (at level 61, c at next level, right associativity).

(** [for x in l: s = body(x, s)], stopping at the first exception. *)
Fixpoint for_each {A S : Type} (l : list A) (body : A -> S -> result S) (s : S)
  : result S :=
  match l with
  | [] => Return s
  | a :: l' => s' <- body a s ;; for_each l' body s'
  end.

(** ** Python built-ins used by the two modules *)

(** [range(n)] *)
Definition range (n : Z) : list Z := map Z.of_nat (seq 0 (Z.to_nat n)).

(** [l[i]] *)
Definition getitem {A : Type} (l : list A) (i : Z) : result A :=
  let n := Z.of_nat (length l) in
  let j := if (i <? 0)%Z then (i + n)%Z else i in
  if ((j <? 0) || (n <=? j))%Z then Raise IndexError
  else match nth_error l (Z.to_nat j) with
       | Some a => Return a
       | None => Raise IndexError
       end.

(** [l[:-1]] *)
Definition all_but_last {A : Type} (l : list A) : list A := removelast l.

(** A dict literal, in insertion order; [k in d] and [d[k]] go through
    [lookup]. *)
Fixpoint lookup {K V : Type} (eqb : K -> K -> bool) (k : K) (d : list (K * V))
  : option V :=
  match d with
  | [] => None
  | (k', v) :: d' => if eqb k k' then Some v else lookup eqb k d'
  end.

Definition zip_with {A B C : Type} (f : A -> B -> C) (l : list A) (l' : list B)
  : list C :=
  map (fun p => f (fst p) (snd p)) (combine l l').

Definition str_of_Z (z : Z) : string := NilZero.string_of_int (Z.to_int z).

(** ** NumPy over the reals

    [np.zeros] and [np.linspace] as the values they denote before
    rounding. *)

Module np.
Local Open Scope R_scope.

(** [np.zeros(n)] *)
Definition zeros (n : Z) : result (list R) :=
  if (n <? 0)%Z then Raise (ValueError "negative dimensions are not allowed")
  else Return (repeat 0 (Z.to_nat n)).

(** [np.arange(0, n)] *)
Definition arange (n : nat) : list R := map INR (seq 0 n).

(** [np.linspace(start, stop, num)] with the default [endpoint=True]:
    [arange(0, num) * step + start] with [step = (stop - start) / (num - 1)],
    the last sample overwritten by [stop] when [num > 1]. *)
Definition linspace (start stop : R) (num : Z) : result (list R) :=
  if (num <? 0)%Z then
    Raise (ValueError ("Number of samples, " ++ str_of_Z num
                       ++ ", must be non-negative.")%string)
  else
    let n := Z.to_nat num in
    let div := (n - 1)%nat in
    let delta := stop - start in
    let y := arange n in
    let y := if (0 <? div)%nat
             then map (fun k => k * (delta / INR div)) y
             else map (fun k => k * delta) y in
    let y := map (fun v => v + start) y in
    Return (if (1 <? n)%nat then removelast y ++ [stop] else y).
End np.

(** ** distribution.py

    The line and hexagonal distributions over the reals, and the Gaussian
    quadrature on its binary64 tables. *)

Module BaseDistribution.
Local Open Scope R_scope.

(** [self.x[1] - self.x[0]], on the array [generate_points] stored *)
Definition dx (x : list R) : result R :=
  x1 <- getitem x 1 ;;
  x0 <- getitem x 0 ;;
  Return (x1 - x0).

(** [self.y[1] - self.y[0]] *)
Definition dy (y : list R) : result R :=
  y1 <- getitem y 1 ;;
  y0 <- getitem y 0 ;;
  Return (y1 - y0).
End BaseDistribution.

Module LineXDistribution.
Local Open Scope R_scope.
Definition generate_points (positive_only : bool) (num_points : Z)
  : result (list R * list R) :=
  x <- (if positive_only then np.linspace 0 1 num_points
        else np.linspace (-1) 1 num_points) ;;
  y <- np.zeros num_points ;;
  Return (x, y).
End LineXDistribution.

Module LineYDistribution.
Local Open Scope R_scope.
Definition generate_points (positive_only : bool) (num_points : Z)
  : result (list R * list R) :=
  x <- np.zeros num_points ;;
  y <- (if positive_only then np.linspace 0 1 num_points
        else np.linspace (-1) 1 num_points) ;;
  Return (x, y).
End LineYDistribution.

Module HexagonalDistribution.
Local Open Scope R_scope.

(** One iteration of the loop over [range(num_rings)]. *)
Definition ring_step (r : list R) (i : Z) (xy : list R * list R)
  : result (list R * list R) :=
  let num_theta := (6 * (i + 1))%Z in
  th <- np.linspace 0 (2 * PI) (num_theta + 1) ;;
  let theta := all_but_last th in
  ri <- getitem r (i + 1) ;;
  Return (fst xy ++ map (fun t => ri * cos t) theta,
          snd xy ++ map (fun t => ri * sin t) theta).

Definition generate_points (num_rings : Z) : result (list R * list R) :=
  x <- np.zeros 1 ;;
  y <- np.zeros 1 ;;
  r <- np.linspace 0 1 (num_rings + 1) ;;
  for_each (range num_rings) (ring_step r) (x, y).
End HexagonalDistribution.

Module GaussianQuadrature.
Local Open Scope float_scope.

Definition rings_error : exn :=
  ValueError "Gaussian quadrature must have between 1 and 6 rings.".

Definition radius_dict : list (Z * list float) :=
  [ (1%Z, [0.70711]);
    (2%Z, [0.45970; 0.88807]);
    (3%Z, [0.33571; 0.70711; 0.94196]);
    (4%Z, [0.26350; 0.57446; 0.81853; 0.96466]);
    (5%Z, [0.21659; 0.48038; 0.70711; 0.87706; 0.97626]);
    (6%Z, [0.18375; 0.41158; 0.61700; 0.78696; 0.91138; 0.98300]) ].

Definition _get_radius (num_rings : Z) : result (list float) :=
  match lookup Z.eqb num_rings radius_dict with
  | None => Raise rings_error
  | Some radius => Return radius
  end.

Definition weights_dict : list (Z * list float) :=
  [ (1%Z, [0.5]);
    (2%Z, [0.25; 0.25]);
    (3%Z, [0.13889; 0.22222; 0.13889]);
    (4%Z, [0.08696; 0.16304; 0.16304; 0.08696]);
    (5%Z, [0.059231; 0.11966; 0.14222; 0.11966; 0.059231]);
    (6%Z, [0.04283; 0.09019; 0.11698; 0.11698; 0.09019; 0.04283]) ].

(** [weights_dict] is built afresh by every call, so the in-place
    [weights *= k] never reaches a later call. *)
Definition get_weights (is_symmetric : bool) (num_rings : Z)
  : result (list float) :=
  match lookup Z.eqb num_rings weights_dict with
  | None => Raise rings_error
  | Some weights =>
      Return (if is_symmetric
              then map (fun w => w * 6.0) weights
              else map (fun w => w * 2.0) weights)
  end.

(** [np.outer(a, b).flatten()]: row [i] is [a[i] * b], rows in order. *)
Definition outer_flatten (a b : list float) : list float :=
  flat_map (fun ai => map (fun bj => ai * bj) b) a.

(** [np.cos] and [np.sin] on binary64 are the platform's; they are
    parameters here. *)
Definition generate_points (cos sin : float -> float) (is_symmetric : bool)
           (num_rings : Z) : result (list float * list float) :=
  match _get_radius num_rings with
  | inl e => inl e
  | inr radius =>
      let theta := if is_symmetric then [0.0]
                   else [-1.04719755; 0.0; 1.04719755] in
      Return (outer_flatten radius (map cos theta),
              outer_flatten radius (map sin theta))
  end.
End GaussianQuadrature.

(** The instances [create_distribution] can build: the class and the
    constructor arguments.  No instance carries points before its
    [generate_points] has run. *)
Inductive distribution : Type :=
| new_LineXDistribution (positive_only : bool)
| new_LineYDistribution (positive_only : bool)
| new_RandomDistribution (seed : option Z)
| new_UniformDistribution
| new_HexagonalDistribution
| new_CrossDistribution
| new_RingDistribution.

Definition distribution_classes : list (string * distribution) :=
  [ ("line_x", new_LineXDistribution false);
    ("line_y", new_LineYDistribution false);
    ("positive_line_x", new_LineXDistribution true);
    ("positive_line_y", new_LineYDistribution true);
    ("random", new_RandomDistribution None);
    ("uniform", new_UniformDistribution);
    ("hexapolar", new_HexagonalDistribution);
    ("cross", new_CrossDistribution);
    ("ring", new_RingDistribution) ]%string.

Definition create_distribution (distribution_type : string) : result distribution :=
  match lookup String.eqb distribution_type distribution_classes with
  | None => Raise (ValueError "Invalid distribution type.")
  | Some d => Return d
  end.

(** ** distribution.py on binary64 arrays *)

Module binary64.
Local Open Scope float_scope.

Module np.

(** [np.pi] *)
Definition pi : float := 3.141592653589793.

(** A Python [int] (a count or an index, below [2^63]) as a [float64];
    exact below [2^53]. *)
Definition of_int (z : Z) : float := PrimFloat.of_uint63 (Uint63.of_Z z).

(** [np.zeros(n)] *)
Definition zeros (n : Z) : result (list float) :=
  if (n <? 0)%Z then Raise (ValueError "negative dimensions are not allowed")
  else Return (repeat 0 (Z.to_nat n)).

(** [np.arange(0, n, dtype=float64)] *)
Definition arange (n : nat) : list float :=
  map (fun k => of_int (Z.of_nat k)) (seq 0 n).

(** [np.linspace(start, stop, num)] with the default [endpoint=True], as
    [numpy/_core/function_base.py] computes it:
    [div = num - 1], [delta = stop - start], [y = arange(0, num)];
    when [div > 0], [step = delta / div] and [y = y * step], unless [step]
    is zero, where [y = y / div * delta]; when [div <= 0], [y = y * delta];
    then [y += start], and [y[-1] = stop] when [num > 1]. *)
Definition linspace (start stop : float) (num : Z) : result (list float) :=
  if (num <? 0)%Z then
    Raise (ValueError ("Number of samples, " ++ str_of_Z num
                       ++ ", must be non-negative.")%string)
  else
    let div := (num - 1)%Z in
    let delta := stop - start in
    let y := arange (Z.to_nat num) in
    let y := if (0 <? div)%Z then
               let step := delta / of_int div in
               if step =? 0 then map (fun v => v / of_int div * delta) y
               else map (fun v => v * step) y
             else map (fun v => v * delta) y in
    let y := map (fun v => v + start) y in
    Return (if (1 <? num)%Z then removelast y ++ [stop] else y).

(** [np.meshgrid(x, y)] (the default ['xy'] indexing): both results have
    one row per element of [y] and one column per element of [x]. *)
Definition meshgrid (x y : list float) : list (list float) * list (list float) :=
  (map (fun _ => x) y, map (fun yi => map (fun _ => yi) x) y).

(** [a[mask]] for a 2-D array and a boolean mask of its shape: the selected
    entries in row-major order. *)
Definition select_row (row : list float) (mrow : list bool) : list float :=
  map fst (filter snd (combine row mrow)).

Definition mask_select (a : list (list float)) (mask : list (list bool))
  : list float :=
  concat (zip_with select_row a mask).
End np.

Module BaseDistribution.

(** [self.x[1] - self.x[0]], on the array [generate_points] stored *)
Definition dx (x : list float) : result float :=
  x1 <- getitem x 1 ;;
  x0 <- getitem x 0 ;;
  Return (x1 - x0).

(** [self.y[1] - self.y[0]] *)
Definition dy (y : list float) : result float :=
  y1 <- getitem y 1 ;;
  y0 <- getitem y 0 ;;
  Return (y1 - y0).
End BaseDistribution.

Module LineXDistribution.
Definition generate_points (positive_only : bool) (num_points : Z)
  : result (list float * list float) :=
  x <- (if positive_only then np.linspace 0 1 num_points
        else np.linspace (-1) 1 num_points) ;;
  y <- np.zeros num_points ;;
  Return (x, y).
End LineXDistribution.

Module UniformDistribution.
(** Returns the pair assigned to [self.x], [self.y].  [x**2] on a
    [float64] array is NumPy's [square], the product [x * x]. *)
Definition generate_points (num_points : Z) : result (list float * list float) :=
  x <- np.linspace (-1) 1 num_points ;;
  let (x, y) := np.meshgrid x x in
  let r2 := zip_with (zip_with (fun a b => a * a + b * b)) x y in
  let mask := map (map (fun v => v <=? 1)) r2 in
  Return (np.mask_select x mask, np.mask_select y mask).
End UniformDistribution.

Module HexagonalDistribution.

(** One iteration of the loop over [range(num_rings)]. *)
Definition ring_step (cos sin : float -> float) (r : list float) (i : Z)
           (xy : list float * list float) : result (list float * list float) :=
  let num_theta := (6 * (i + 1))%Z in
  th <- np.linspace 0 (2 * np.pi) (num_theta + 1) ;;
  let theta := all_but_last th in
  ri <- getitem r (i + 1) ;;
  Return (fst xy ++ map (fun t => ri * cos t) theta,
          snd xy ++ map (fun t => ri * sin t) theta).

Definition generate_points (cos sin : float -> float) (num_rings : Z)
  : result (list float * list float) :=
  x <- np.zeros 1 ;;
  y <- np.zeros 1 ;;
  r <- np.linspace 0 1 (num_rings + 1) ;;
  for_each (range num_rings) (ring_step cos sin r) (x, y).
End HexagonalDistribution.

Module CrossDistribution.
Definition generate_points (num_points : Z) : result (list float * list float) :=
  x1 <- np.zeros num_points ;;
  x2 <- np.linspace (-1) 1 num_points ;;
  y1 <- np.linspace (-1) 1 num_points ;;
  y2 <- np.zeros num_points ;;
  Return (x1 ++ x2, y1 ++ y2).
End CrossDistribution.

Module RingDistribution.
Definition generate_points (cos sin : float -> float) (num_points : Z)
  : result (list float * list float) :=
  th <- np.linspace 0 (2 * np.pi) (num_points + 1) ;;
  let theta := all_but_last th in
  Return (map cos theta, map sin theta).
End RingDistribution.
End binary64.

(** ** variable.py *)

(** Python values that reach a [Variable]: the optic and its surface group
    are objects of the optical-system model, known by reference only. *)
Inductive pyval : Type :=
| PyNone
| PyBool (b : bool)
| PyInt (z : Z)
| PyFloat (f : float)
| PyStr (s : string)
| PyRef (addr : nat).

(** A [dict] with string keys (also a [**kwargs]), in insertion order. *)
Definition dict : Type := list (string * pyval).

Definition dict_get (k : string) (d : dict) : option pyval := lookup String.eqb k d.

Definition has_key (k : string) (d : dict) : bool :=
  match dict_get k d with Some _ => true | None => false end.

(** [d[k] = v]: an existing key keeps its place. *)
Fixpoint dict_set (k : string) (v : pyval) (d : dict) : dict :=
  match d with
  | [] => [(k, v)]
  | (k', v') :: d' =>
      if String.eqb k k' then (k', v) :: d' else (k', v') :: dict_set k v d'
  end.

(** [{**d, **d2}] *)
Definition dict_merge (d d2 : dict) : dict :=
  fold_left (fun acc kv => dict_set (fst kv) (snd kv) acc) d2 d.

(** the keywords left for [**kwargs] once the named parameters are bound *)
Definition dict_without (names : list string) (d : dict) : dict :=
  filter (fun kv => negb (existsb (String.eqb (fst kv)) names)) d.

(** [l[i] = v] *)
Definition setitem {A : Type} (l : list A) (i : Z) (v : A) : result (list A) :=
  let n := Z.of_nat (length l) in
  let j := if (i <? 0)%Z then (i + n)%Z else i in
  if ((j <? 0) || (n <=? j))%Z then Raise IndexError
  else Return (firstn (Z.to_nat j) l ++ v :: skipn (S (Z.to_nat j)) l).

Definition dquote : string := String "034"%char EmptyString.

Module variable.
Local Open Scope string_scope.

(** *** The optical system, at its interface

    [W] is the state of the optical-system model.  Each field is one
    expression of [variable.py] over the optic ([optic]) or over the
    surface group an earlier [optic.surface_group] returned ([sg]).
    Accessors read the state; the five setters are the only mutators. *)
Record Optic (W : Type) : Type := {
  (** [optic.surface_group] *)
  surface_group : pyval -> W -> result pyval;
  (** [sg.radii[i]] *)
  radii : pyval -> pyval -> W -> result pyval;
  (** [sg.conic[i]] *)
  conic : pyval -> pyval -> W -> result pyval;
  (** [sg.get_thickness(i)[0]] *)
  get_thickness : pyval -> pyval -> W -> result pyval;
  (** [optic.n(wavelength)[i]] *)
  n : pyval -> pyval -> pyval -> W -> result pyval;
  (** [sg.surfaces[i].geometry.c[k]] *)
  geometry_c : pyval -> pyval -> pyval -> W -> result pyval;
  (** [optic.set_radius(value, i)] and its siblings *)
  set_radius : pyval -> pyval -> pyval -> W -> result W;
  set_conic : pyval -> pyval -> pyval -> W -> result W;
  set_thickness : pyval -> pyval -> pyval -> W -> result W;
  set_index : pyval -> pyval -> pyval -> W -> result W;
  (** [optic.set_asphere_coeff(value, i, k)] *)
  set_asphere_coeff : pyval -> pyval -> pyval -> pyval -> W -> result W
}.

(** *** State: the optic's world and what [print] has written

    A computation returns a value and the next state, or raises; what was
    printed before a raise is not kept. *)
Record state (W : Type) : Type := { world : W; stdout : list string }.

Definition M (W A : Type) : Type := state W -> result (A * state W).

Definition ret {W A : Type} (a : A) : M W A := fun s => Return (a, s).

Definition mbind {W A B : Type} (c : M W A) (k : A -> M W B) : M W B :=
  fun s => match c s with
           | inl e => inl e
           | inr (a, s') => k a s'
           end.

Definition throw {W A : Type} (e : exn) : M W A := fun _ => Raise e.

Definition print {W : Type} (line : string) : M W unit :=
  fun s => Return (tt, {| world := world s; stdout := stdout s ++ [line] |}).

Definition read {W A : Type} (f : W -> result A) : M W A :=
  fun s => match f (world s) with
           | inl e => inl e
           | inr a => Return (a, s)
           end.

Definition write {W : Type} (f : W -> result W) : M W unit :=
  fun s => match f (world s) with
           | inl e => inl e
           | inr w => Return (tt, {| world := w; stdout := stdout s |})
           end.

Notation "x <~ c ;; k" := (mbind c (fun x => k))
  (at level 61, c at next level, right associativity).

Fixpoint mfor {W A S : Type} (l : list A) (body : A -> S -> M W S) (s : S)
  : M W S :=
  match l with
  | [] => ret s
  | a :: l' => s' <~ body a s ;; mfor l' body s'
  end.

(** *** The behaviours *)
Inductive VariableBehavior : Type :=
| RadiusVariable (optic _surfaces surface_number : pyval)
| ConicVariable (optic _surfaces surface_number : pyval)
| ThicknessVariable (optic _surfaces surface_number : pyval)
| IndexVariable (optic _surfaces surface_number wavelength : pyval)
| AsphereCoeffVariable (optic _surfaces surface_number coeff_number : pyval).

(** A class called with keywords only still binds [self] positionally: a
    key [self] among the keywords is a second value for it. *)
Definition no_self (d : dict) : result unit :=
  if has_key "self" d then Raise TypeError else Return tt.

(** a required parameter taken from the keywords *)
Definition required (name : string) (d : dict) : result pyval :=
  match dict_get name d with
  | Some v => Return v
  | None => Raise TypeError
  end.

Section Behaviours.
Context {W : Type} (api : Optic W).

(** [VariableBehavior.__init__(self, optic, surface_number, **kwargs)],
    called as [super().__init__(optic, surface_number, **kwargs)];
    returns [self._surfaces]. *)
Definition VariableBehavior_init (optic surface_number : pyval)
           (kwargs : dict) (w : W) : result pyval :=
  if has_key "self" kwargs || has_key "optic" kwargs
     || has_key "surface_number" kwargs
  then Raise TypeError
  else surface_group api optic w.

(** [RadiusVariable] called with the keywords [d] *)
Definition RadiusVariable_init (d : dict) (w : W) : result VariableBehavior :=
  _ <- no_self d ;;
  optic <- required "optic" d ;;
  surface_number <- required "surface_number" d ;;
  let kwargs := dict_without ["optic"; "surface_number"] d in
  sg <- VariableBehavior_init optic surface_number kwargs w ;;
  Return (RadiusVariable optic sg surface_number).

Definition ConicVariable_init (d : dict) (w : W) : result VariableBehavior :=
  _ <- no_self d ;;
  optic <- required "optic" d ;;
  surface_number <- required "surface_number" d ;;
  let kwargs := dict_without ["optic"; "surface_number"] d in
  sg <- VariableBehavior_init optic surface_number kwargs w ;;
  Return (ConicVariable optic sg surface_number).

Definition ThicknessVariable_init (d : dict) (w : W) : result VariableBehavior :=
  _ <- no_self d ;;
  optic <- required "optic" d ;;
  surface_number <- required "surface_number" d ;;
  let kwargs := dict_without ["optic"; "surface_number"] d in
  sg <- VariableBehavior_init optic surface_number kwargs w ;;
  Return (ThicknessVariable optic sg surface_number).

Definition IndexVariable_init (d : dict) (w : W) : result VariableBehavior :=
  _ <- no_self d ;;
  optic <- required "optic" d ;;
  surface_number <- required "surface_number" d ;;
  wavelength <- required "wavelength" d ;;
  let kwargs := dict_without ["optic"; "surface_number"; "wavelength"] d in
  sg <- VariableBehavior_init optic surface_number kwargs w ;;
  Return (IndexVariable optic sg surface_number wavelength).

Definition AsphereCoeffVariable_init (d : dict) (w : W)
  : result VariableBehavior :=
  _ <- no_self d ;;
  optic <- required "optic" d ;;
  surface_number <- required "surface_number" d ;;
  coeff_number <- required "coeff_number" d ;;
  let kwargs := dict_without ["optic"; "surface_number"; "coeff_number"] d in
  sg <- VariableBehavior_init optic surface_number kwargs w ;;
  Return (AsphereCoeffVariable optic sg surface_number coeff_number).

Definition get_value (b : VariableBehavior) : M W pyval :=
  match b with
  | RadiusVariable _ sg i => read (radii api sg i)
  | ConicVariable _ sg i => read (conic api sg i)
  | ThicknessVariable _ sg i => read (get_thickness api sg i)
  | IndexVariable optic _ i wavelength => read (n api optic wavelength i)
  | AsphereCoeffVariable _ sg i k => read (geometry_c api sg i k)
  end.

Definition update_value (b : VariableBehavior) (new_value : pyval) : M W unit :=
  match b with
  | RadiusVariable optic _ i => write (set_radius api optic new_value i)
  | ConicVariable optic _ i => write (set_conic api optic new_value i)
  | ThicknessVariable optic _ i => write (set_thickness api optic new_value i)
  | IndexVariable optic _ i _ => write (set_index api optic new_value i)
  | AsphereCoeffVariable optic _ i k =>
      write (set_asphere_coeff api optic new_value i k)
  end.

(** *** Variable *)
(** The class [Variable]; a Rocq keyword, hence [Var]. *)
Record Var : Type := {
  optic : pyval;
  type : string;
  min_val : pyval;
  max_val : pyval;
  kwargs : dict;
  (** the attributes [setattr] added *)
  attrs : dict;
  variable_behavior : option VariableBehavior
}.

Definition allowed_attributes : list string :=
  ["surface_number"; "coeff_number"; "wavelength"].

Definition warning (key : string) : string :=
  "Warning: " ++ key ++ " is not a recognized attribute".

(** the body of [for key, value in kwargs.items()] *)
Definition set_attribute (kv : string * pyval) (attrs : dict) : M W dict :=
  if existsb (String.eqb (fst kv)) allowed_attributes
  then ret (dict_set (fst kv) (snd kv) attrs)
  else _ <~ print (warning (fst kv)) ;; ret attrs.

Definition variable_types
  : list (string * (dict -> W -> result VariableBehavior)) :=
  [ ("radius", RadiusVariable_init);
    ("conic", ConicVariable_init);
    ("thickness", ThicknessVariable_init);
    ("index", IndexVariable_init);
    ("asphere_coeff", AsphereCoeffVariable_init) ].

Definition _get_variable_behavior (optic : pyval) (type : string)
           (kwargs : dict) : M W (option VariableBehavior) :=
  let behavior_kwargs :=
    dict_merge [("type_name", PyStr type); ("optic", optic)] kwargs in
  match lookup String.eqb type variable_types with
  | Some variable_class =>
      b <~ read (variable_class behavior_kwargs) ;; ret (Some b)
  | None => ret None
  end.

(** [Variable(optic, type_name, min_val, max_val, **kwargs)] *)
Definition __init__ (optic : pyval) (type_name : string)
           (min_val max_val : pyval) (kwargs : dict) : M W Var :=
  attrs <~ mfor kwargs set_attribute [] ;;
  behavior <~ _get_variable_behavior optic type_name kwargs ;;
  ret {| optic := optic; type := type_name;
         min_val := min_val; max_val := max_val;
         kwargs := kwargs; attrs := attrs;
         variable_behavior := behavior |}.

Definition invalid_type (type : string) : exn :=
  ValueError ("Invalid variable type " ++ dquote ++ type ++ dquote).

Definition value (self : Var) : M W pyval :=
  match variable_behavior self with
  | Some behavior => get_value behavior
  | None => throw (invalid_type (type self))
  end.

Definition bounds (self : Var) : M W (pyval * pyval) :=
  ret (min_val self, max_val self).

Definition update (self : Var) (new_value : pyval) : M W unit :=
  match variable_behavior self with
  | Some behavior => update_value behavior new_value
  | None => throw (invalid_type (type self))
  end.
End Behaviours.
End variable.

(** ** A stub optical system

    It exposes the radius part of the interface only; the optic is the
    object at address 0. *)
Module stub.
Import variable.

Definition unsupported {A B : Type} : A -> result B := fun _ => Raise AttributeError.

(** A surface group (address 1) that keeps its radii in one list, which
    [set_radius] assigns into. *)
Definition in_place : Optic (list pyval) :=
  {| surface_group := fun _ _ => Return (PyRef 1);
     radii := fun sg i w =>
                match sg, i with
                | PyRef 1, PyInt k => getitem w k
                | _, _ => Raise TypeError
                end;
     conic := fun _ _ => unsupported;
     get_thickness := fun _ _ => unsupported;
     n := fun _ _ _ => unsupported;
     geometry_c := fun _ _ _ => unsupported;
     set_radius := fun _ v i w =>
                     match i with
                     | PyInt k => setitem w k v
                     | _ => Raise TypeError
                     end;
     set_conic := fun _ _ _ => unsupported;
     set_thickness := fun _ _ _ => unsupported;
     set_index := fun _ _ _ => unsupported;
     set_asphere_coeff := fun _ _ _ _ => unsupported |}.
End stub.

(** ** Vocabulary of the properties *)

(** The keys [create_distribution] registers. *)
Definition distribution_keys : list string :=
  [ "line_x"; "line_y"; "positive_line_x"; "positive_line_y"; "random";
    "uniform"; "hexapolar"; "cross"; "ring" ]%string.


(** The type names [Variable._get_variable_behavior] dispatches on. *)
Definition recognised_types : list string :=
  [ "radius"; "conic"; "thickness"; "index"; "asphere_coeff" ]%string.

(** The named parameters of [Variable.__init__]: Python binds a keyword of
    one of these names to the parameter, so none is ever a key of the
    [kwargs] dictionary the body receives. *)
Definition init_parameters : list string :=
  [ "self"; "optic"; "type_name"; "min_val"; "max_val" ]%string.

(** What the loop over [kwargs.items()] leaves: the attributes set, and the
    lines printed. *)
Definition keep_attribute (attrs : dict) (kv : string * pyval) : dict :=
  if existsb (String.eqb (fst kv)) variable.allowed_attributes
  then dict_set (fst kv) (snd kv) attrs
  else attrs.

Definition warnings (kwargs : dict) : list string :=
  map (fun kv => variable.warning (fst kv))
      (filter (fun kv => negb (existsb (String.eqb (fst kv))
                                       variable.allowed_attributes))
              kwargs).

(** Two keyword dictionaries that bind every name but [k] alike. *)
Definition same_bindings (k : string) (d d' : dict) : Prop :=
  forall f : string, f <> k -> dict_get f d = dict_get f d'.

(** The collaborator contract for radii.  The surface group the optic
    exposes is a view of the optic as it is: once
    [optic.set_radius(value, i)] has returned, [optic.surface_group] is
    there to read, and [radii[i]] of the surface group, whenever the optic
    handed it out, is [value]. *)
Definition radius_contract {W : Type} (api : variable.Optic W) (optic : pyval)
  : Prop :=
  forall (value i : pyval) (w w' : W),
    variable.set_radius api optic value i w = Return w' ->
    (exists sg, variable.surface_group api optic w' = Return sg)
    /\ forall (w0 : W) (sg : pyval),
        variable.surface_group api optic w0 = Return sg ->
        variable.radii api sg i w' = Return value.

(** The k-th of the [n] samples of [np.linspace(start, stop, n)] on
    binary64: [k * step + start] with [step = (stop - start) / (n - 1)],
    every operation rounded, but the last sample, which is [stop] itself;
    a single sample is [0 * (stop - start) + start]. *)
Definition linspace_sample (start stop : float) (n k : nat) : float :=
  (let delta := stop - start in
   let div := binary64.np.of_int (Z.of_nat n - 1) in
   let j := binary64.np.of_int (Z.of_nat k) in
   if (n <=? 1)%nat then j * delta + start
   else if (k =? n - 1)%nat then stop
   else (if delta / div =? 0 then j / div * delta else j * (delta / div))
        + start)%float.


(** The keywords each behaviour class cannot be built without. *)
Definition required_parameters (type_name : string) : list string :=
  (if String.eqb type_name "radius" then ["surface_number"]
   else if String.eqb type_name "conic" then ["surface_number"]
   else if String.eqb type_name "thickness" then ["surface_number"]
   else if String.eqb type_name "index" then ["surface_number"; "wavelength"]
   else if String.eqb type_name "asphere_coeff" then ["surface_number"; "coeff_number"]
   else [])%string.

(** A [kwargs] dictionary as [Variable.__init__] can receive it: no key
    twice, and no key that names a parameter of [__init__]. *)
Definition kwargs_ok (kwargs : dict) : Prop :=
  NoDup (map fst kwargs)
  /\ forall k, In k init_parameters -> dict_get k kwargs = None.

(** The attributes of a behaviour object: its class (as the key of
    [variable_types]), [self.optic], [self._surfaces],
    [self.surface_number], and [self.wavelength] or [self.coeff_number]
    where the class has one. *)
Definition behavior_class (b : variable.VariableBehavior) : string :=
  match b with
  | variable.RadiusVariable _ _ _ => "radius"
  | variable.ConicVariable _ _ _ => "conic"
  | variable.ThicknessVariable _ _ _ => "thickness"
  | variable.IndexVariable _ _ _ _ => "index"
  | variable.AsphereCoeffVariable _ _ _ _ => "asphere_coeff"
  end%string.

Definition behavior_optic (b : variable.VariableBehavior) : pyval :=
  match b with
  | variable.RadiusVariable o _ _ | variable.ConicVariable o _ _
  | variable.ThicknessVariable o _ _ | variable.IndexVariable o _ _ _
  | variable.AsphereCoeffVariable o _ _ _ => o
  end.

Definition behavior_surfaces (b : variable.VariableBehavior) : pyval :=
  match b with
  | variable.RadiusVariable _ sg _ | variable.ConicVariable _ sg _
  | variable.ThicknessVariable _ sg _ | variable.IndexVariable _ sg _ _
  | variable.AsphereCoeffVariable _ sg _ _ => sg
  end.

Definition behavior_surface_number (b : variable.VariableBehavior) : pyval :=
  match b with
  | variable.RadiusVariable _ _ i | variable.ConicVariable _ _ i
  | variable.ThicknessVariable _ _ i | variable.IndexVariable _ _ i _
  | variable.AsphereCoeffVariable _ _ i _ => i
  end.

Definition behavior_parameter (b : variable.VariableBehavior)
  : option (string * pyval) :=
  match b with
  | variable.IndexVariable _ _ _ wavelength => Some ("wavelength"%string, wavelength)
  | variable.AsphereCoeffVariable _ _ _ k => Some ("coeff_number"%string, k)
  | _ => None
  end.

(** The collaborator contracts for the other four quantities: what the
    setter stored is what the accessor the behaviour uses shows afterwards,
    read through the surface group [optic.surface_group] then denotes. *)
Definition conic_contract {W : Type} (api : variable.Optic W) (optic : pyval)
  : Prop :=
  forall (value i : pyval) (w w' : W),
    variable.set_conic api optic value i w = Return w' ->
    exists sg,
      variable.surface_group api optic w' = Return sg
      /\ variable.conic api sg i w' = Return value.

Definition thickness_contract {W : Type} (api : variable.Optic W) (optic : pyval)
  : Prop :=
  forall (value i : pyval) (w w' : W),
    variable.set_thickness api optic value i w = Return w' ->
    exists sg,
      variable.surface_group api optic w' = Return sg
      /\ variable.get_thickness api sg i w' = Return value.

Definition asphere_contract {W : Type} (api : variable.Optic W) (optic : pyval)
  : Prop :=
  forall (value i k : pyval) (w w' : W),
    variable.set_asphere_coeff api optic value i k w = Return w' ->
    exists sg,
      variable.surface_group api optic w' = Return sg
      /\ variable.geometry_c api sg i k w' = Return value.

Definition index_contract {W : Type} (api : variable.Optic W) (optic : pyval)
  : Prop :=
  forall (value i wavelength : pyval) (w w' : W),
    variable.set_index api optic value i w = Return w' ->
    variable.n api optic wavelength i w' = Return value.

(** A third stub optic, with all five quantities kept in lists that the
    setters assign into; the surface group is the object at address 1 and
    the refractive indices are the same at every wavelength. *)
Record bench : Type := {
  bench_radii : list pyval;
  bench_conic : list pyval;
  bench_thickness : list pyval;
  bench_index : list pyval;
  bench_coeffs : list (list pyval)
}.

Definition at_index {A : Type} (l : list A) (i : pyval) : result A :=
  match i with
  | PyInt k => getitem l k
  | _ => Raise TypeError
  end.

Definition set_at_index {A : Type} (l : list A) (i : pyval) (v : A)
  : result (list A) :=
  match i with
  | PyInt k => setitem l k v
  | _ => Raise TypeError
  end.

Definition bench_optic : variable.Optic bench :=
  {| variable.surface_group := fun _ _ => Return (PyRef 1);
     variable.radii := fun _ i w => at_index (bench_radii w) i;
     variable.conic := fun _ i w => at_index (bench_conic w) i;
     variable.get_thickness := fun _ i w => at_index (bench_thickness w) i;
     variable.n := fun _ _ i w => at_index (bench_index w) i;
     variable.geometry_c :=
       fun _ i k w => c <- at_index (bench_coeffs w) i ;; at_index c k;
     variable.set_radius :=
       fun _ v i w =>
         l <- set_at_index (bench_radii w) i v ;;
         Return {| bench_radii := l; bench_conic := bench_conic w;
                   bench_thickness := bench_thickness w;
                   bench_index := bench_index w; bench_coeffs := bench_coeffs w |};
     variable.set_conic :=
       fun _ v i w =>
         l <- set_at_index (bench_conic w) i v ;;
         Return {| bench_radii := bench_radii w; bench_conic := l;
                   bench_thickness := bench_thickness w;
                   bench_index := bench_index w; bench_coeffs := bench_coeffs w |};
     variable.set_thickness :=
       fun _ v i w =>
         l <- set_at_index (bench_thickness w) i v ;;
         Return {| bench_radii := bench_radii w; bench_conic := bench_conic w;
                   bench_thickness := l;
                   bench_index := bench_index w; bench_coeffs := bench_coeffs w |};
     variable.set_index :=
       fun _ v i w =>
         l <- set_at_index (bench_index w) i v ;;
         Return {| bench_radii := bench_radii w; bench_conic := bench_conic w;
                   bench_thickness := bench_thickness w;
                   bench_index := l; bench_coeffs := bench_coeffs w |};
     variable.set_asphere_coeff :=
       fun _ v i k w =>
         c <- at_index (bench_coeffs w) i ;;
         c' <- set_at_index c k v ;;
         l <- set_at_index (bench_coeffs w) i c' ;;
         Return {| bench_radii := bench_radii w; bench_conic := bench_conic w;
                   bench_thickness := bench_thickness w;
                   bench_index := bench_index w; bench_coeffs := l |} |}.

(** One state of [bench_optic]: three surfaces. *)
Definition bench_state : variable.state bench :=
  {| variable.world :=
       {| bench_radii := [PyFloat 10; PyFloat 20; PyFloat 30];
          bench_conic := [PyFloat 0; PyFloat 0; PyFloat 0];
          bench_thickness := [PyFloat 1; PyFloat 2; PyFloat 3];
          bench_index := [PyFloat 1; PyFloat 1.5; PyFloat 1];
          bench_coeffs := [[PyFloat 0]; [PyFloat 0; PyFloat 0]; [PyFloat 0]] |};
     variable.stdout := [] |}.

(** [bench_state] with one list of the optic replaced. *)
Definition bench_with_conic (l : list pyval) : variable.state bench :=
  {| variable.world :=
       {| bench_radii := bench_radii (variable.world bench_state);
          bench_conic := l;
          bench_thickness := bench_thickness (variable.world bench_state);
          bench_index := bench_index (variable.world bench_state);
          bench_coeffs := bench_coeffs (variable.world bench_state) |};
     variable.stdout := [] |}.

Definition bench_with_thickness (l : list pyval) : variable.state bench :=
  {| variable.world :=
       {| bench_radii := bench_radii (variable.world bench_state);
          bench_conic := bench_conic (variable.world bench_state);
          bench_thickness := l;
          bench_index := bench_index (variable.world bench_state);
          bench_coeffs := bench_coeffs (variable.world bench_state) |};
     variable.stdout := [] |}.

Definition bench_with_coeffs (l : list (list pyval)) : variable.state bench :=
  {| variable.world :=
       {| bench_radii := bench_radii (variable.world bench_state);
          bench_conic := bench_conic (variable.world bench_state);
          bench_thickness := bench_thickness (variable.world bench_state);
          bench_index := bench_index (variable.world bench_state);
          bench_coeffs := l |};
     variable.stdout := [] |}.

(** * Properties *)

(** ** GaussianQuadrature tables and the factory *)

Example get_weights_3_symmetric :
  GaussianQuadrature.get_weights true 3
  = Return [0.83334000000000008; 1.3333200000000001; 0.83334000000000008]%float.
Proof. reflexivity. Qed.

Example get_weights_2 :
  GaussianQuadrature.get_weights false 2 = Return [0.5; 0.5]%float.
Proof. reflexivity. Qed.

Lemma weights_dict_keys (num_rings : Z) :
  (1 <= num_rings <= 6)%Z ->
  exists table, lookup Z.eqb num_rings GaussianQuadrature.weights_dict = Some table
                /\ length table = Z.to_nat num_rings.
Proof.
  intros H.
  assert (num_rings = 1 \/ num_rings = 2 \/ num_rings = 3 \/ num_rings = 4
          \/ num_rings = 5 \/ num_rings = 6)%Z as Hn by lia.
  repeat (destruct Hn as [-> | Hn]); try subst num_rings;
    (eexists; split; [reflexivity | reflexivity]).
Qed.

(** C1: [get_weights] returns the table of the ring count with every entry
    multiplied by 6.0 when the instance is symmetric and by 2.0 otherwise;
    each ring count from 1 to 6 has a table, of that many entries; for one
    ring the result is [1.0] (not symmetric) and [3.0] (symmetric). *)
Theorem C1_get_weights_scaled :
  (forall (is_symmetric : bool) (num_rings : Z) (table : list float),
      lookup Z.eqb num_rings GaussianQuadrature.weights_dict = Some table ->
      GaussianQuadrature.get_weights is_symmetric num_rings
      = Return (map (fun w => PrimFloat.mul w (if is_symmetric then 6.0 else 2.0)%float)
                    table))
  /\ (forall (is_symmetric : bool) (num_rings : Z),
         (1 <= num_rings <= 6)%Z ->
         exists weights,
           GaussianQuadrature.get_weights is_symmetric num_rings = Return weights
           /\ length weights = Z.to_nat num_rings)
  /\ GaussianQuadrature.get_weights false 1 = Return [1.0%float]
  /\ GaussianQuadrature.get_weights true 1 = Return [3.0%float].
Proof.
  split; [| split; [| split; reflexivity]].
  - intros is_symmetric num_rings table Htable.
    unfold GaussianQuadrature.get_weights. rewrite Htable.
    destruct is_symmetric; reflexivity.
  - intros is_symmetric num_rings Hn.
    destruct (weights_dict_keys Hn) as [table [Htable Hlen]].
    unfold GaussianQuadrature.get_weights. rewrite Htable.
    eexists; split; [reflexivity |].
    destruct is_symmetric; rewrite length_map; exact Hlen.
Qed.

Lemma lookup_string_none {V : Type} (key : string) (d : list (string * V)) :
  ~ In key (map fst d) -> lookup String.eqb key d = None.
Proof.
  induction d as [| [k v] d IH]; simpl; intros Hnot; [reflexivity |].
  destruct (String.eqb_spec key k) as [-> | Hne].
  - exfalso. apply Hnot. now left.
  - apply IH. intros Hin. apply Hnot. now right.
Qed.

Lemma lookup_Z_none {V : Type} (key : Z) (d : list (Z * V)) :
  ~ In key (map fst d) -> lookup Z.eqb key d = None.
Proof.
  induction d as [| [k v] d IH]; simpl; intros Hnot; [reflexivity |].
  destruct (Z.eqb_spec key k) as [-> | Hne].
  - exfalso. apply Hnot. now left.
  - apply IH. intros Hin. apply Hnot. now right.
Qed.

Lemma ring_count_not_key (num_rings : Z) :
  ~ (1 <= num_rings <= 6)%Z -> ~ In num_rings [1; 2; 3; 4; 5; 6]%Z.
Proof. simpl. lia. Qed.

Example create_distribution_hexapolar :
  create_distribution "hexapolar" = Return new_HexagonalDistribution.
Proof. reflexivity. Qed.

(** C4: [create_distribution] raises [ValueError("Invalid distribution type.")]
    (the spec's InvalidConfiguration) for every key outside the nine
    registered ones, and its result is then the exception alone: no instance
    exists on which points could have been generated.  [_get_radius] and
    [get_weights] raise the ring-count [ValueError] for every ring count
    outside 1..6. *)
Theorem C4_invalid_configuration :
  (forall key : string,
      ~ In key distribution_keys ->
      create_distribution key = Raise (ValueError "Invalid distribution type."))
  /\ (forall (is_symmetric : bool) (num_rings : Z),
         ~ (1 <= num_rings <= 6)%Z ->
         GaussianQuadrature._get_radius num_rings
         = Raise (ValueError "Gaussian quadrature must have between 1 and 6 rings.")
         /\ GaussianQuadrature.get_weights is_symmetric num_rings
            = Raise (ValueError "Gaussian quadrature must have between 1 and 6 rings.")).
Proof.
  split.
  - intros key Hkey. unfold create_distribution.
    rewrite lookup_string_none; [reflexivity | exact Hkey].
  - intros is_symmetric num_rings Hn.
    apply ring_count_not_key in Hn.
    unfold GaussianQuadrature._get_radius, GaussianQuadrature.get_weights.
    rewrite !lookup_Z_none; [split; reflexivity | exact Hn | exact Hn].
Qed.

(** ** Lists and loops *)



Lemma getitem_nth {A : Type} (l : list A) (k : nat) (d : A) :
  (k < length l)%nat -> getitem l (Z.of_nat k) = Return (nth k l d).
Proof.
  intros Hk. unfold getitem.
  destruct (Z.ltb_spec (Z.of_nat k) 0) as [Hneg | _]; [lia |].
  destruct (Z.ltb_spec (Z.of_nat k) 0) as [Hneg | _]; [lia |].
  destruct (Z.leb_spec (Z.of_nat (length l)) (Z.of_nat k)) as [Hge | _]; [lia |].
  simpl. rewrite Nat2Z.id.
  destruct (nth_error l k) as [a |] eqn:Hnth.
  - apply (nth_error_nth _ _ d) in Hnth. now subst.
  - apply nth_error_None in Hnth. lia.
Qed.

Lemma nth_removelast {A : Type} (l : list A) (k : nat) (d : A) :
  (S k < length l)%nat -> nth k (removelast l) d = nth k l d.
Proof.
  intros Hk.
  destruct (exists_last (l := l)) as [l0 [a Hl]].
  { intros ->. simpl in Hk. lia. }
  subst l. rewrite removelast_last.
  rewrite length_app in Hk. simpl in Hk.
  rewrite app_nth1 by lia. reflexivity.
Qed.

Lemma length_removelast {A : Type} (l : list A) :
  length (removelast l) = (length l - 1)%nat.
Proof.
  destruct l as [| x l] using rev_ind; [reflexivity |].
  rewrite removelast_last, length_app. simpl. lia.
Qed.

Lemma nth_map_seq {A : Type} (f : nat -> A) (m k : nat) (d : A) :
  (k < m)%nat -> nth k (map f (seq 0 m)) d = f k.
Proof.
  intros Hk.
  rewrite (nth_indep _ d (f O)) by (rewrite length_map, length_seq; exact Hk).
  rewrite map_nth, seq_nth by exact Hk. reflexivity.
Qed.

(** ** np.linspace over the reals *)

Section Linspace.
Local Open Scope R_scope.

Lemma linspace_negative (a b : R) (num : Z) :
  (num < 0)%Z -> exists msg, np.linspace a b num = Raise (ValueError msg).
Proof.
  intros Hneg. unfold np.linspace.
  destruct (Z.ltb_spec num 0) as [_ | Hge]; [| lia].
  eexists. reflexivity.
Qed.

Lemma linspace_0 (a b : R) : np.linspace a b 0 = Return [].
Proof. reflexivity. Qed.

Lemma linspace_1 (a b : R) : np.linspace a b 1 = Return [a].
Proof.
  unfold np.linspace. simpl. unfold Return. do 2 f_equal. ring.
Qed.

(** With two samples or more: the first [m] samples step by
    [(b - a) / m] from [a], the last one is [b]. *)
Lemma linspace_S (a b : R) (m : nat) :
  (1 <= m)%nat ->
  np.linspace a b (Z.of_nat (S m))
  = Return (map (fun k => INR k * ((b - a) / INR m) + a) (seq 0 m) ++ [b]).
Proof.
  intros Hm. unfold np.linspace.
  destruct (Z.ltb_spec (Z.of_nat (S m)) 0) as [Hneg | _]; [lia |].
  rewrite Nat2Z.id.
  replace (S m - 1)%nat with m by lia.
  destruct (Nat.ltb_spec 0 m) as [_ | H0]; [| lia].
  destruct (Nat.ltb_spec 1 (S m)) as [_ | H1]; [| lia].
  unfold np.arange. rewrite seq_S, !map_app. simpl.
  rewrite removelast_last, !map_map. reflexivity.
Qed.

(** The samples of [np.linspace(a, b, n)], in closed form. *)
Lemma linspace_nat (a b : R) (n : nat) :
  exists l,
    np.linspace a b (Z.of_nat n) = Return l
    /\ length l = n
    /\ forall k, (k < n)%nat ->
                 nth k l 0 = if (n =? 1)%nat then a
                             else a + INR k * (b - a) / INR (n - 1).
Proof.
  destruct n as [| [| m]].
  - exists []. split; [apply linspace_0 | split; [reflexivity | intros k Hk; lia]].
  - exists [a]. split; [apply linspace_1 | split; [reflexivity |]].
    intros k Hk. destruct k; [reflexivity | lia].
  - eexists. split; [apply linspace_S; lia |].
    split; [rewrite length_app, length_map, length_seq; simpl; lia |].
    intros k Hk.
    replace (S (S m) =? 1)%nat with false by reflexivity.
    replace (S (S m) - 1)%nat with (S m) by lia.
    assert (INR (S m) <> 0) as Hm by (apply not_0_INR; lia).
    destruct (Nat.eq_dec k (S m)) as [-> | Hne].
    + rewrite app_nth2; rewrite length_map, length_seq; [| lia].
      rewrite Nat.sub_diag. simpl nth. field. exact Hm.
    + rewrite app_nth1 by (rewrite length_map, length_seq; lia).
      rewrite nth_map_seq by lia.
      field. exact Hm.
Qed.

Lemma zeros_nat (n : nat) : np.zeros (Z.of_nat n) = Return (repeat 0 n).
Proof.
  unfold np.zeros.
  destruct (Z.ltb_spec (Z.of_nat n) 0) as [Hneg | _]; [lia |].
  now rewrite Nat2Z.id.
Qed.
End Linspace.

(** ** np.linspace on binary64 *)

Example linspace_minus1_1_11 :
  binary64.np.linspace (-1) 1 11
  = Return [-1; -0.80000000000000004; -0.59999999999999998;
            -0.39999999999999991; -0.19999999999999996; 0;
            0.20000000000000018; 0.40000000000000013; 0.60000000000000009;
            0.80000000000000004; 1]%float.
Proof. vm_compute. reflexivity. Qed.

Example linspace_0_1_11 :
  binary64.np.linspace 0 1 11
  = Return [0; 0.10000000000000001; 0.20000000000000001;
            0.30000000000000004; 0.40000000000000002; 0.5;
            0.60000000000000009; 0.70000000000000007; 0.80000000000000004;
            0.90000000000000002; 1]%float.
Proof. vm_compute. reflexivity. Qed.

Lemma linspace64_negative (a b : float) (num : Z) :
  (num < 0)%Z -> exists msg, binary64.np.linspace a b num = Raise (ValueError msg).
Proof.
  intros Hneg. unfold binary64.np.linspace.
  destruct (Z.ltb_spec num 0) as [_ | Hge]; [| lia].
  eexists. reflexivity.
Qed.

(** The samples of [np.linspace(a, b, n)], one by one. *)
Lemma linspace64_nat (a b : float) (n : nat) :
  exists l,
    binary64.np.linspace a b (Z.of_nat n) = Return l
    /\ length l = n
    /\ forall k, (k < n)%nat -> nth k l 0%float = linspace_sample a b n k.
Proof.
  destruct n as [| [| m]].
  - exists []. split; [reflexivity | split; [reflexivity | intros k Hk; lia]].
  - eexists. split; [reflexivity | split; [reflexivity |]].
    intros k Hk. destruct k; [reflexivity | lia].
  - unfold binary64.np.linspace. cbv zeta.
    destruct (Z.ltb_spec (Z.of_nat (S (S m))) 0) as [Hneg | _]; [lia |].
    destruct (Z.ltb_spec 0 (Z.of_nat (S (S m)) - 1)) as [_ | H0]; [| lia].
    destruct (Z.ltb_spec 1 (Z.of_nat (S (S m)))) as [_ | H1]; [| lia].
    rewrite Nat2Z.id. unfold binary64.np.arange.
    rewrite (seq_S (S m) 0).
    set (div := binary64.np.of_int (Z.of_nat (S (S m)) - 1)).
    assert (forall f : float -> float,
               removelast
                 (map (fun v => PrimFloat.add v a)
                      (map f (map (fun k => binary64.np.of_int (Z.of_nat k))
                                  (seq 0 (S m) ++ [(0 + S m)%nat]))))
               ++ [b]
               = map (fun k => PrimFloat.add (f (binary64.np.of_int (Z.of_nat k))) a)
                     (seq 0 (S m)) ++ [b]) as Hshape.
    { intros f. rewrite !map_app. cbn [map].
      rewrite removelast_last, !map_map. reflexivity. }
    assert (forall (f : float -> float) (k : nat),
               (k < S (S m))%nat ->
               nth k (map (fun k => PrimFloat.add (f (binary64.np.of_int (Z.of_nat k))) a)
                          (seq 0 (S m)) ++ [b]) 0%float
               = if (k =? S m)%nat then b
                 else PrimFloat.add (f (binary64.np.of_int (Z.of_nat k))) a) as Hnth.
    { intros f k Hk. destruct (Nat.eqb_spec k (S m)) as [-> | Hne].
      - rewrite app_nth2; rewrite length_map, length_seq; [| lia].
        now rewrite Nat.sub_diag.
      - rewrite app_nth1 by (rewrite length_map, length_seq; lia).
        apply (nth_map_seq (fun k => PrimFloat.add (f (binary64.np.of_int (Z.of_nat k))) a)).
        lia. }
    unfold linspace_sample. cbv zeta. fold div.
    replace (S (S m) <=? 1)%nat with false by reflexivity.
    replace (S (S m) - 1)%nat with (S m) by lia.
    destruct (PrimFloat.eqb (PrimFloat.div (PrimFloat.sub b a) div) 0).
    + rewrite Hshape. eexists. split; [reflexivity |].
      split; [rewrite length_app, length_map, length_seq; simpl; lia |].
      intros k Hk.
      exact (Hnth (fun v => PrimFloat.mul (PrimFloat.div v div) (PrimFloat.sub b a))
                  k Hk).
    + rewrite Hshape. eexists. split; [reflexivity |].
      split; [rewrite length_app, length_map, length_seq; simpl; lia |].
      intros k Hk.
      exact (Hnth (fun v => PrimFloat.mul v (PrimFloat.div (PrimFloat.sub b a) div))
                  k Hk).
Qed.

Lemma zeros64_nat (n : nat) :
  binary64.np.zeros (Z.of_nat n) = Return (repeat 0%float n).
Proof.
  unfold binary64.np.zeros.
  destruct (Z.ltb_spec (Z.of_nat n) 0) as [Hneg | _]; [lia |].
  now rewrite Nat2Z.id.
Qed.

(** ** CrossDistribution *)

Example cross_3 :
  binary64.CrossDistribution.generate_points 3
  = Return ([0; 0; 0; -1; 0; 1]%float, [-1; 0; 1; 0; 0; 0]%float).
Proof. vm_compute. reflexivity. Qed.

Example cross_negative :
  binary64.CrossDistribution.generate_points (-1)
  = Raise (ValueError "negative dimensions are not allowed").
Proof. reflexivity. Qed.

(** C7: for every count [n], [CrossDistribution.generate_points(n)] yields
    [2n] points; the first [n] have [x = 0] and for [y] the [n] samples of
    [np.linspace(-1, 1, n)], the last [n] have [y = 0] and for [x] those
    same samples.  The samples are the binary64 values NumPy computes,
    [k * (2 / (n - 1)) - 1] with every operation rounded and the last one
    [1] itself. *)
Theorem C7_cross_points (n : nat) :
  exists xs ys : list float,
    binary64.CrossDistribution.generate_points (Z.of_nat n) = Return (xs, ys)
    /\ length xs = (2 * n)%nat
    /\ length ys = (2 * n)%nat
    /\ forall k : nat,
        (k < n)%nat ->
        nth k xs 0%float = 0%float
        /\ nth k ys 0%float = linspace_sample (-1) 1 n k
        /\ nth (n + k) xs 0%float = linspace_sample (-1) 1 n k
        /\ nth (n + k) ys 0%float = 0%float.
Proof.
  destruct (linspace64_nat (-1) 1 n) as [arm [Harm [Hlen Hnth]]].
  exists (repeat 0%float n ++ arm), (arm ++ repeat 0%float n).
  split.
  { unfold binary64.CrossDistribution.generate_points.
    rewrite zeros64_nat, Harm. reflexivity. }
  split; [rewrite length_app, repeat_length; lia |].
  split; [rewrite length_app, repeat_length; lia |].
  intros k Hk.
  repeat split.
  - rewrite app_nth1 by (rewrite repeat_length; exact Hk). apply nth_repeat.
  - rewrite app_nth1 by lia. exact (Hnth k Hk).
  - rewrite app_nth2 by (rewrite repeat_length; lia).
    rewrite repeat_length. replace (n + k - n)%nat with k by lia. exact (Hnth k Hk).
  - rewrite app_nth2 by lia.
    rewrite Hlen. replace (n + k - n)%nat with k by lia. apply nth_repeat.
Qed.

(** ** HexagonalDistribution over the reals *)

Lemma nth_map_default {A B : Type} (f : A -> B) (l : list A) (k : nat) (d : A) (d' : B) :
  (k < length l)%nat -> nth k (map f l) d' = f (nth k l d).
Proof.
  intros Hk.
  rewrite (nth_indep _ d' (f d)) by (rewrite length_map; exact Hk).
  apply map_nth.
Qed.

Section Hexagonal.
Local Open Scope R_scope.



End Hexagonal.

(** ** HexagonalDistribution on binary64 *)

Section Hexagonal64.
Variables cos sin : float -> float.



End Hexagonal64.




(** ** Keyword dictionaries *)

Lemma dict_get_set (f k : string) (v : pyval) (d : dict) :
  dict_get f (dict_set k v d) = if String.eqb f k then Some v else dict_get f d.
Proof.
  unfold dict_get. induction d as [| [k' v'] d IH]; simpl.
  - destruct (String.eqb f k); reflexivity.
  - destruct (String.eqb_spec k k') as [<- | Hkk']; simpl.
    + destruct (String.eqb f k); reflexivity.
    + destruct (String.eqb_spec f k') as [-> | Hfk'].
      * destruct (String.eqb_spec k' k); [congruence | reflexivity].
      * exact IH.
Qed.

Lemma same_bindings_set (k f : string) (v : pyval) (d d' : dict) :
  same_bindings k d d' -> same_bindings k (dict_set f v d) (dict_set f v d').
Proof.
  intros H g Hg. rewrite !dict_get_set.
  destruct (String.eqb g f); [reflexivity | now apply H].
Qed.

Lemma same_bindings_merge (k : string) (kw d d' : dict) :
  same_bindings k d d' -> same_bindings k (dict_merge d kw) (dict_merge d' kw).
Proof.
  revert d d'. induction kw as [| [f v] kw IH]; intros d d' H; simpl; [exact H |].
  apply IH. now apply same_bindings_set.
Qed.

(** An extra keyword [k] changes no other binding of the merged dictionary. *)
Lemma same_bindings_insert (k : string) (x : pyval) (d kw1 kw2 : dict) :
  same_bindings k (dict_merge d (kw1 ++ kw2)) (dict_merge d (kw1 ++ (k, x) :: kw2)).
Proof.
  unfold dict_merge. rewrite !fold_left_app. simpl.
  apply same_bindings_merge.
  intros f Hf. rewrite dict_get_set.
  destruct (String.eqb_spec f k); [contradiction | reflexivity].
Qed.

Lemma dict_get_without (f : string) (names : list string) (d : dict) :
  dict_get f (dict_without names d)
  = if existsb (String.eqb f) names then None else dict_get f d.
Proof.
  unfold dict_get, dict_without. induction d as [| [k' v'] d IH]; simpl.
  - destruct (existsb (String.eqb f) names); reflexivity.
  - destruct (existsb (String.eqb k') names) eqn:Hk'; simpl.
    + rewrite IH. destruct (String.eqb_spec f k') as [-> | Hne]; [| reflexivity].
      now rewrite Hk'.
    + rewrite IH. destruct (String.eqb_spec f k') as [-> | Hne]; [| reflexivity].
      now rewrite Hk'.
Qed.

Lemma getitem_setitem {A : Type} (l l' : list A) (i : Z) (v : A) :
  setitem l i v = Return l' -> getitem l' i = Return v.
Proof.
  unfold setitem, getitem. cbv zeta.
  set (j := if (i <? 0)%Z then (i + Z.of_nat (length l))%Z else i).
  destruct ((j <? 0)%Z || (Z.of_nat (length l) <=? j)%Z) eqn:Hrange;
    [discriminate |].
  apply orb_false_elim in Hrange. destruct Hrange as [Hlo Hhi].
  apply Z.ltb_ge in Hlo. apply Z.leb_gt in Hhi.
  intros Hl'.
  assert (l' = firstn (Z.to_nat j) l ++ v :: skipn (S (Z.to_nat j)) l) as ->
      by (unfold Return in Hl'; congruence).
  clear Hl'.
  assert (length (firstn (Z.to_nat j) l ++ v :: skipn (S (Z.to_nat j)) l) = length l)
    as Hlen.
  { rewrite length_app, length_firstn. cbn [length]. rewrite length_skipn. lia. }
  rewrite Hlen. fold j.
  destruct (Z.ltb_spec j 0) as [Hneg | _]; [lia |].
  destruct (Z.leb_spec (Z.of_nat (length l)) j) as [Hge | _]; [lia |].
  simpl.
  rewrite nth_error_app2; rewrite length_firstn; [| lia].
  replace (Z.to_nat j - Nat.min (Z.to_nat j) (length l))%nat with 0%nat by lia.
  reflexivity.
Qed.

(** ** Variable construction *)

Section Construction.
Import variable.
Context {W : Type} (api : Optic W).

Lemma warnings_app (kw1 kw2 : dict) :
  warnings (kw1 ++ kw2) = warnings kw1 ++ warnings kw2.
Proof. unfold warnings. now rewrite filter_app, map_app. Qed.

Lemma set_attribute_run (kv : string * pyval) (attrs : dict) (st : state W) :
  set_attribute kv attrs st
  = Return (keep_attribute attrs kv,
            {| world := world st; stdout := stdout st ++ warnings [kv] |}).
Proof.
  unfold set_attribute, keep_attribute, warnings. cbn [filter].
  destruct (existsb (String.eqb (fst kv)) allowed_attributes); cbn [negb map].
  - unfold ret. rewrite app_nil_r. now destruct st.
  - reflexivity.
Qed.

Lemma set_attributes_run (kw attrs : dict) (st : state W) :
  mfor kw (@set_attribute W) attrs st
  = Return (fold_left keep_attribute kw attrs,
            {| world := world st; stdout := stdout st ++ warnings kw |}).
Proof.
  revert attrs st. induction kw as [| kv kw IH]; intros attrs st.
  - simpl. unfold ret, warnings. simpl. rewrite app_nil_r. now destruct st.
  - cbn [mfor fold_left]. unfold mbind. rewrite set_attribute_run.
    unfold Return at 1. rewrite IH. cbn [world stdout].
    change (kv :: kw) with ([kv] ++ kw).
    now rewrite warnings_app, app_assoc.
Qed.

Lemma variable_types_names : map fst (variable_types api) = recognised_types.
Proof. reflexivity. Qed.

Lemma unrecognised_type (type_name : string) :
  ~ In type_name recognised_types ->
  lookup String.eqb type_name (variable_types api) = None.
Proof. intros H. apply lookup_string_none. now rewrite variable_types_names. Qed.

Lemma recognised_type (type_name : string) :
  In type_name recognised_types ->
  exists variable_class,
    lookup String.eqb type_name (variable_types api) = Some variable_class.
Proof.
  simpl. intros H.
  repeat (destruct H as [<- | H]; [eexists; reflexivity |]). contradiction.
Qed.

(** [__init__], with the loop and the dispatch carried out. *)
Lemma init_run (optic : pyval) (type_name : string) (min_val max_val : pyval)
      (kw : dict) (st : state W) :
  __init__ api optic type_name min_val max_val kw st
  = match lookup String.eqb type_name (variable_types api) with
    | None =>
        Return ({| optic := optic; type := type_name;
                   min_val := min_val; max_val := max_val; kwargs := kw;
                   attrs := fold_left keep_attribute kw [];
                   variable_behavior := None |},
                {| world := world st; stdout := stdout st ++ warnings kw |})
    | Some variable_class =>
        match variable_class
                (dict_merge [("type_name", PyStr type_name); ("optic", optic)]%string kw)
                (world st) with
        | inl e => inl e
        | inr b =>
            Return ({| optic := optic; type := type_name;
                       min_val := min_val; max_val := max_val; kwargs := kw;
                       attrs := fold_left keep_attribute kw [];
                       variable_behavior := Some b |},
                    {| world := world st; stdout := stdout st ++ warnings kw |})
        end
    end.
Proof.
  unfold __init__, mbind. rewrite set_attributes_run.
  unfold Return, _get_variable_behavior.
  destruct (lookup String.eqb type_name (variable_types api)) as [cls |];
    [| reflexivity].
  unfold mbind, read. simpl.
  destruct (cls _ (world st)); reflexivity.
Qed.
End Construction.

(** ** Variable: deferred validation, bounds, extra keywords *)

Section Behaviour_keywords.
Import variable.
Context {W : Type} (api : Optic W).

(** A behaviour class reads five names of its keywords and no other. *)
Lemma behaviour_init_same (k : string) (d d' : dict) (w : W) :
  same_bindings k d d' ->
  ~ In k ["self"; "optic"; "surface_number"; "wavelength"; "coeff_number"]%string ->
  forall (name : string) (variable_class : dict -> W -> result VariableBehavior),
    lookup String.eqb name (variable_types api) = Some variable_class ->
    variable_class d w = variable_class d' w.
Proof.
  intros Hsame Hk name cls Hcls.
  assert (dict_get "self" d = dict_get "self" d') as Hself
      by (apply Hsame; intros <-; apply Hk; simpl; tauto).
  assert (dict_get "optic" d = dict_get "optic" d') as Hoptic
      by (apply Hsame; intros <-; apply Hk; simpl; tauto).
  assert (dict_get "surface_number" d = dict_get "surface_number" d') as Hnum
      by (apply Hsame; intros <-; apply Hk; simpl; tauto).
  assert (dict_get "wavelength" d = dict_get "wavelength" d') as Hwave
      by (apply Hsame; intros <-; apply Hk; simpl; tauto).
  assert (dict_get "coeff_number" d = dict_get "coeff_number" d') as Hcoeff
      by (apply Hsame; intros <-; apply Hk; simpl; tauto).
  simpl in Hcls.
  repeat match type of Hcls with
         | (if ?b then _ else _) = _ => destruct b
         end;
    try discriminate; injection Hcls as <-;
    unfold RadiusVariable_init, ConicVariable_init, ThicknessVariable_init,
      IndexVariable_init, AsphereCoeffVariable_init,
      VariableBehavior_init, no_self, required, has_key;
    rewrite !dict_get_without; simpl existsb;
    rewrite ?Hself, ?Hoptic, ?Hnum, ?Hwave, ?Hcoeff; reflexivity.
Qed.
End Behaviour_keywords.

Example bogus_type_value :
  let st := {| variable.world := [PyFloat 10; PyFloat 20; PyFloat 30];
               variable.stdout := [] |} in
  exists v,
    variable.__init__ stub.in_place (PyRef 0) "bogus_type" PyNone PyNone [] st
    = Return (v, st)
    /\ variable.value stub.in_place v st
       = Raise (ValueError ("Invalid variable type " ++ dquote ++ "bogus_type" ++ dquote)).
Proof. eexists. split; reflexivity. Qed.

Example radius_without_surface_number :
  variable.__init__ stub.in_place (PyRef 0) "radius" PyNone PyNone []
                    {| variable.world := [PyFloat 10]; variable.stdout := [] |}
  = Raise TypeError.
Proof. reflexivity. Qed.

(** C2: for every optic and every [type_name] outside the five recognised
    ones, construction returns a variable (whatever the keywords) without
    touching the optic, and on that variable [value] and [update] raise
    [ValueError('Invalid variable type "<type_name>"')] (the spec's
    InvalidVariableType) in every state.  For a recognised [type_name], a
    variable that was constructed holds a behaviour, and [value] and [update]
    are that behaviour's [get_value] and [update_value]: the raising branch
    is not taken. *)
Theorem C2_deferred_validation {W : Type} (api : variable.Optic W) (optic : pyval)
        (type_name : string) (min_val max_val : pyval) (kwargs : dict)
        (st : variable.state W) :
  (~ In type_name recognised_types ->
   exists v st',
     variable.__init__ api optic type_name min_val max_val kwargs st = Return (v, st')
     /\ variable.world st' = variable.world st
     /\ (forall s,
            variable.value api v s
            = Raise (ValueError ("Invalid variable type " ++ dquote ++ type_name ++ dquote)))
     /\ (forall new_value s,
            variable.update api v new_value s
            = Raise (ValueError ("Invalid variable type " ++ dquote ++ type_name ++ dquote))))
  /\ (In type_name recognised_types ->
      forall v st',
        variable.__init__ api optic type_name min_val max_val kwargs st = Return (v, st') ->
        exists behavior,
          variable.variable_behavior v = Some behavior
          /\ (forall s, variable.value api v s = variable.get_value api behavior s)
          /\ (forall new_value s,
                 variable.update api v new_value s
                 = variable.update_value api behavior new_value s)).
Proof.
  split.
  - intros Htype. rewrite init_run, (unrecognised_type api Htype).
    eexists. eexists. split; [reflexivity |]. split; [reflexivity |].
    split; intros; reflexivity.
  - intros Htype v st' Hinit. rewrite init_run in Hinit.
    destruct (recognised_type api Htype) as [cls Hcls]. rewrite Hcls in Hinit.
    destruct (cls _ (variable.world st)) as [e | behavior]; [discriminate |].
    injection Hinit as <- _. exists behavior.
    split; [reflexivity |]. split; intros; reflexivity.
Qed.

(** C10: on every constructed [Variable], whatever its [type_name], reading
    [bounds] returns the pair [(min_val, max_val)] the constructor was given
    and changes nothing; it takes no optic and consults no behaviour. *)
Theorem C10_bounds {W : Type} (api : variable.Optic W) (optic : pyval)
        (type_name : string) (min_val max_val : pyval) (kwargs : dict)
        (st st' : variable.state W) (v : variable.Var) :
  variable.__init__ api optic type_name min_val max_val kwargs st = Return (v, st') ->
  forall s : variable.state W,
    variable.bounds v s = Return ((min_val, max_val), s).
Proof.
  intros Hinit s. rewrite init_run in Hinit.
  destruct (lookup String.eqb type_name (variable.variable_types api)) as [cls |].
  - destruct (cls _ (variable.world st)) as [e | behavior]; [discriminate |].
    injection Hinit as <- _. reflexivity.
  - injection Hinit as <- _. reflexivity.
Qed.

Lemma C10_bounds_witness :
  variable.bounds
    {| variable.optic := PyRef 0; variable.type := "bogus_type";
       variable.min_val := PyFloat 1; variable.max_val := PyFloat 2;
       variable.kwargs := []; variable.attrs := [];
       variable.variable_behavior := None |}
    {| variable.world := [PyFloat 10]; variable.stdout := [] |}
  = Return ((PyFloat 1, PyFloat 2),
            {| variable.world := [PyFloat 10]; variable.stdout := [] |}).
Proof.
  apply (@C10_bounds _ stub.in_place (PyRef 0) "bogus_type" (PyFloat 1) (PyFloat 2) []
                     {| variable.world := [PyFloat 10]; variable.stdout := [] |}
                     {| variable.world := [PyFloat 10]; variable.stdout := [] |}).
  reflexivity.
Defined.

Example radius_with_unknown_keyword :
  let st := {| variable.world := [PyFloat 10; PyFloat 20; PyFloat 30];
               variable.stdout := [] |} in
  exists v,
    variable.__init__ stub.in_place (PyRef 0) "radius" PyNone PyNone
                      [("surface_number", PyInt 2); ("foo", PyInt 1)]%string st
    = Return (v, {| variable.world := variable.world st;
                    variable.stdout := ["Warning: foo is not a recognized attribute"%string] |})
    /\ variable.value stub.in_place v st = Return (PyFloat 30, st).
Proof. eexists. split; reflexivity. Qed.

(** C9: let [key] be a keyword outside the whitelist (and, as for every key
    of a [kwargs] dictionary, not the name of a parameter of [__init__]).
    If construction succeeds without it, it succeeds with it, wherever the
    keyword stands among the others; the only difference is one more printed
    line, the warning for [key]; the optic is left as it was, and the
    variable holds the same behaviour, so [value] and [update] do what they
    do on the variable built without the keyword. *)
Theorem C9_unrecognised_keyword {W : Type} (api : variable.Optic W) (optic : pyval)
        (type_name : string) (min_val max_val : pyval) (kw1 kw2 : dict)
        (key : string) (x : pyval) (st st' : variable.state W) (v : variable.Var) :
  ~ In key variable.allowed_attributes ->
  ~ In key init_parameters ->
  variable.__init__ api optic type_name min_val max_val (kw1 ++ kw2) st = Return (v, st') ->
  exists v' out1 out2,
    variable.__init__ api optic type_name min_val max_val (kw1 ++ (key, x) :: kw2) st
    = Return (v', {| variable.world := variable.world st';
                     variable.stdout := out1 ++ variable.warning key :: out2 |})
    /\ variable.stdout st' = out1 ++ out2
    /\ variable.variable_behavior v' = variable.variable_behavior v
    /\ (forall s, variable.value api v' s = variable.value api v s)
    /\ (forall new_value s,
           variable.update api v' new_value s = variable.update api v new_value s).
Proof.
  intros Hallowed Hparam Hinit.
  assert (existsb (String.eqb key) variable.allowed_attributes = false) as Hnot.
  { apply not_true_is_false. intros Hex. apply existsb_exists in Hex.
    destruct Hex as [a [Ha Heq]]. apply String.eqb_eq in Heq. now subst a. }
  assert (warnings (kw1 ++ (key, x) :: kw2)
          = warnings kw1 ++ variable.warning key :: warnings kw2) as Hwarn.
  { rewrite warnings_app. f_equal. unfold warnings. cbn [filter fst].
    rewrite Hnot. reflexivity. }
  assert (fold_left keep_attribute (kw1 ++ (key, x) :: kw2) []
          = fold_left keep_attribute (kw1 ++ kw2) []) as Hattrs.
  { rewrite !fold_left_app. cbn [fold_left]. unfold keep_attribute at 2.
    cbn [fst]. now rewrite Hnot. }
  rewrite init_run in Hinit. rewrite init_run.
  exists {| variable.optic := optic; variable.type := type_name;
            variable.min_val := min_val; variable.max_val := max_val;
            variable.kwargs := kw1 ++ (key, x) :: kw2;
            variable.attrs := variable.attrs v;
            variable.variable_behavior := variable.variable_behavior v |},
         (variable.stdout st ++ warnings kw1), (warnings kw2).
  destruct (lookup String.eqb type_name (variable.variable_types api))
    as [cls |] eqn:Hcls.
  - rewrite <- (@behaviour_init_same W api key _ _ (variable.world st)
                                     (@same_bindings_insert key x _ kw1 kw2)
                                     ltac:(simpl in *; tauto) _ _ Hcls).
    destruct (cls _ (variable.world st)) as [e | behavior]; [discriminate |].
    injection Hinit as <- <-. cbn.
    rewrite Hwarn, Hattrs, warnings_app, !app_assoc.
    repeat split; reflexivity.
  - injection Hinit as <- <-. cbn.
    rewrite Hwarn, Hattrs, warnings_app, !app_assoc.
    repeat split; reflexivity.
Qed.

Lemma C9_unrecognised_keyword_witness :
  exists v' out1 out2,
    variable.__init__ stub.in_place (PyRef 0) "radius" PyNone PyNone
                      ([("surface_number"%string, PyInt 2)] ++ [("foo"%string, PyInt 1)])
                      {| variable.world := [PyFloat 10; PyFloat 20; PyFloat 30];
                         variable.stdout := [] |}
    = Return (v', {| variable.world := [PyFloat 10; PyFloat 20; PyFloat 30];
                     variable.stdout := out1 ++ variable.warning "foo" :: out2 |})
    /\ [] = out1 ++ out2
    /\ variable.variable_behavior v'
       = Some (variable.RadiusVariable (PyRef 0) (PyRef 1) (PyInt 2))
    /\ (forall s,
           variable.value stub.in_place v' s
           = variable.get_value stub.in_place
               (variable.RadiusVariable (PyRef 0) (PyRef 1) (PyInt 2)) s)
    /\ (forall new_value s,
           variable.update stub.in_place v' new_value s
           = variable.update_value stub.in_place
               (variable.RadiusVariable (PyRef 0) (PyRef 1) (PyInt 2)) new_value s).
Proof.
  apply (@C9_unrecognised_keyword
           _ stub.in_place (PyRef 0) "radius" PyNone PyNone
           [("surface_number", PyInt 2)]%string [] "foo" (PyInt 1)
           {| variable.world := [PyFloat 10; PyFloat 20; PyFloat 30];
              variable.stdout := [] |}
           {| variable.world := [PyFloat 10; PyFloat 20; PyFloat 30];
              variable.stdout := [] |}
           {| variable.optic := PyRef 0; variable.type := "radius";
              variable.min_val := PyNone; variable.max_val := PyNone;
              variable.kwargs := [("surface_number", PyInt 2)]%string;
              variable.attrs := [("surface_number", PyInt 2)]%string;
              variable.variable_behavior :=
                Some (variable.RadiusVariable (PyRef 0) (PyRef 1) (PyInt 2)) |}).
  - simpl. intros [H | [H | [H | []]]]; discriminate H.
  - simpl. intros [H | [H | [H | [H | [H | []]]]]]; discriminate H.
  - reflexivity.
Defined.

(** ** Variable: the radius round trip *)

Section Radius.
Import variable.
Context {W : Type} (api : Optic W).

(** [Variable(optic, "radius", min_val, max_val, surface_number=s)]: the
    behaviour keeps the surface group [optic.surface_group] denotes now. *)
Lemma init_radius (optic min_val max_val s : pyval) (st : state W) :
  __init__ api optic "radius" min_val max_val [("surface_number", s)]%string st
  = match surface_group api optic (world st) with
    | inl e => inl e
    | inr sg =>
        Return ({| optic := optic; type := "radius";
                   min_val := min_val; max_val := max_val;
                   kwargs := [("surface_number", s)]%string;
                   attrs := [("surface_number", s)]%string;
                   variable_behavior := Some (RadiusVariable optic sg s) |},
                {| world := world st; stdout := stdout st |})
    end.
Proof.
  rewrite init_run. cbn.
  destruct (surface_group api optic (world st)) as [e | sg]; [reflexivity |].
  cbn. now rewrite app_nil_r.
Qed.
End Radius.

Lemma in_place_contract : radius_contract stub.in_place (PyRef 0).
Proof.
  intros value i w w' Hset. split; [exists (PyRef 1); reflexivity |].
  intros w0 sg Hsg. simpl in Hsg. unfold Return in Hsg.
  assert (sg = PyRef 1) as -> by congruence.
  simpl in *. destruct i; try discriminate Hset.
  exact (getitem_setitem _ _ _ Hset).
Qed.

(** C5: for every optic that keeps the radius contract, and a variable
    built as [Variable(optic, "radius", surface_number=s)], [update(x)] is
    exactly [optic.set_radius(x, s)] (the state after is the one the
    mutator returns, and nothing is printed); the optic's radius accessor
    at [s] then holds [x], and [value] is [x]. *)
Theorem C5_radius_round_trip {W : Type} (api : variable.Optic W)
        (optic min_val max_val s x : pyval)
        (st st1 st_before st2 : variable.state W) (v : variable.Var) :
  radius_contract api optic ->
  variable.__init__ api optic "radius" min_val max_val [("surface_number"%string, s)] st
  = Return (v, st1) ->
  variable.update api v x st_before = Return (tt, st2) ->
  variable.set_radius api optic x s (variable.world st_before)
  = Return (variable.world st2)
  /\ variable.stdout st2 = variable.stdout st_before
  /\ (exists sg,
         variable.surface_group api optic (variable.world st2) = Return sg
         /\ variable.radii api sg s (variable.world st2) = Return x)
  /\ variable.value api v st2 = Return (x, st2).
Proof.
  intros Hcontract Hinit Hupdate.
  rewrite init_radius in Hinit.
  destruct (variable.surface_group api optic (variable.world st)) as [e | sg] eqn:Hsg;
    [discriminate Hinit |].
  unfold Return in Hinit. injection Hinit as <- _.
  unfold variable.update, variable.update_value, variable.write in Hupdate.
  cbn in Hupdate.
  destruct (variable.set_radius api optic x s (variable.world st_before))
    as [e | w'] eqn:Hset; [discriminate Hupdate |].
  unfold Return in Hupdate. injection Hupdate as <-. cbn.
  destruct (Hcontract x s _ _ Hset) as [[sg' Hsg'] Hradii].
  split; [reflexivity |]. split; [reflexivity |].
  split; [exists sg'; split; [exact Hsg' | exact (Hradii _ _ Hsg')] |].
  unfold variable.value, variable.get_value, variable.read. cbn.
  rewrite (Hradii _ _ Hsg). reflexivity.
Qed.

Lemma C5_radius_round_trip_witness :
  variable.set_radius stub.in_place (PyRef 0) (PyFloat 55) (PyInt 2)
                      [PyFloat 10; PyFloat 20; PyFloat 30]
  = Return [PyFloat 10; PyFloat 20; PyFloat 55]
  /\ @nil string = []
  /\ (exists sg,
         variable.surface_group stub.in_place (PyRef 0)
                                [PyFloat 10; PyFloat 20; PyFloat 55] = Return sg
         /\ variable.radii stub.in_place sg (PyInt 2)
                           [PyFloat 10; PyFloat 20; PyFloat 55] = Return (PyFloat 55))
  /\ variable.value stub.in_place
       {| variable.optic := PyRef 0; variable.type := "radius";
          variable.min_val := PyNone; variable.max_val := PyNone;
          variable.kwargs := [("surface_number"%string, PyInt 2)];
          variable.attrs := [("surface_number"%string, PyInt 2)];
          variable.variable_behavior :=
            Some (variable.RadiusVariable (PyRef 0) (PyRef 1) (PyInt 2)) |}
       {| variable.world := [PyFloat 10; PyFloat 20; PyFloat 55];
          variable.stdout := [] |}
     = Return (PyFloat 55,
               {| variable.world := [PyFloat 10; PyFloat 20; PyFloat 55];
                  variable.stdout := [] |}).
Proof.
  apply (@C5_radius_round_trip
           _ stub.in_place (PyRef 0) PyNone PyNone (PyInt 2) (PyFloat 55)
           {| variable.world := [PyFloat 10; PyFloat 20; PyFloat 30];
              variable.stdout := [] |}
           {| variable.world := [PyFloat 10; PyFloat 20; PyFloat 30];
              variable.stdout := [] |}
           {| variable.world := [PyFloat 10; PyFloat 20; PyFloat 30];
              variable.stdout := [] |}
           {| variable.world := [PyFloat 10; PyFloat 20; PyFloat 55];
              variable.stdout := [] |}).
  - exact in_place_contract.
  - reflexivity.
  - reflexivity.
Defined.

(** * Further properties *)

(** ** Line distributions *)

(** X1: [LineXDistribution.generate_points(n)] returns [n] points for every
    count [n >= 0]: [y] is all zeros and [x] holds the [n] samples of
    [np.linspace(start, 1, n)], with [start] the lower end of the range
    ([0] when [positive_only], [-1] otherwise), as binary64 computes them;
    a single sample is [start], and with two samples or more the last one
    is [1] itself. *)
Theorem LineX_points (positive_only : bool) (n : nat) :
  exists xs : list float,
    binary64.LineXDistribution.generate_points positive_only (Z.of_nat n)
    = Return (xs, repeat 0%float n)
    /\ length xs = n
    /\ (forall k : nat,
           (k < n)%nat ->
           nth k xs 0%float
           = linspace_sample (if positive_only then 0 else -1) 1 n k)
    /\ (n = 1%nat -> xs = [if positive_only then 0%float else (-1)%float])
    /\ ((2 <= n)%nat -> nth (n - 1) xs 0%float = 1%float).
Proof.
  destruct (linspace64_nat (if positive_only then 0 else -1)%float 1 n)
    as [xs [Hxs [Hlen Hnth]]].
  exists xs. split; [| split; [exact Hlen | split; [exact Hnth | split]]].
  - unfold binary64.LineXDistribution.generate_points.
    destruct positive_only; rewrite Hxs; simpl bind; rewrite zeros64_nat; reflexivity.
  - intros ->.
    destruct xs as [| a [| b xs]]; try discriminate Hlen.
    specialize (Hnth 0%nat ltac:(lia)). simpl nth in Hnth. subst a.
    destruct positive_only; vm_compute; reflexivity.
  - intros Hn. rewrite Hnth by lia. unfold linspace_sample. cbv zeta.
    destruct (Nat.leb_spec n 1) as [Hle | _]; [lia |].
    now rewrite Nat.eqb_refl.
Qed.

(** X2: [LineYDistribution] is [LineXDistribution] with the axes exchanged:
    for the same flag and count both return, and [x] of one is [y] of the
    other, or both raise, which happens exactly for a negative count. *)
Theorem LineY_mirrors_LineX (positive_only : bool) (num_points : Z) :
  match LineXDistribution.generate_points positive_only num_points,
        LineYDistribution.generate_points positive_only num_points with
  | inr (xs, ys), inr (xs', ys') => xs' = ys /\ ys' = xs /\ (0 <= num_points)%Z
  | inl _, inl _ => (num_points < 0)%Z
  | _, _ => False
  end.
Proof.
  unfold LineXDistribution.generate_points, LineYDistribution.generate_points.
  destruct (Z.lt_ge_cases num_points 0) as [Hneg | Hge].
  - unfold np.zeros.
    destruct (Z.ltb_spec num_points 0) as [_ | Hge]; [| lia].
    destruct positive_only.
    + destruct (linspace_negative 0 1 Hneg) as [msg ->]. exact Hneg.
    + destruct (linspace_negative (-1) 1 Hneg) as [msg ->]. exact Hneg.
  - rewrite <- (Z2Nat.id num_points Hge). rewrite zeros_nat.
    destruct positive_only.
    + destruct (linspace_nat 0 1 (Z.to_nat num_points)) as [l [-> _]].
      simpl. repeat split; lia.
    + destruct (linspace_nat (-1) 1 (Z.to_nat num_points)) as [l [-> _]].
      simpl. repeat split; lia.
Qed.

(** ** RingDistribution *)

Example ring_4_angles :
  binary64.RingDistribution.generate_points (fun t => t) (fun t => t) 4
  = Return ([0; 1.5707963267948966; 3.1415926535897931; 4.7123889803846897]%float,
            [0; 1.5707963267948966; 3.1415926535897931; 4.7123889803846897]%float).
Proof. vm_compute. reflexivity. Qed.

(** X3: [RingDistribution.generate_points(n)] returns [n] points for every
    count [n >= 0] (none for [n = 0]); the k-th is [(cos(theta), sin(theta))]
    for [theta] the k-th of the [n + 1] samples of
    [np.linspace(0, 2 pi, n + 1)], and the sample left out is the last one,
    [2 pi] itself, where the ring would meet its first point again. *)
Theorem Ring_points (cos sin : float -> float) (n : nat) :
  exists (xs ys th : list float),
    binary64.RingDistribution.generate_points cos sin (Z.of_nat n) = Return (xs, ys)
    /\ binary64.np.linspace 0 (2 * binary64.np.pi) (Z.of_nat n + 1) = Return th
    /\ length xs = n
    /\ length ys = n
    /\ length th = S n
    /\ (forall k : nat,
           (k < n)%nat ->
           nth k th 0%float = linspace_sample 0 (2 * binary64.np.pi) (S n) k
           /\ nth k xs 0%float = cos (nth k th 0%float)
           /\ nth k ys 0%float = sin (nth k th 0%float))
    /\ ((1 <= n)%nat -> nth n th 0%float = PrimFloat.mul 2 binary64.np.pi).
Proof.
  destruct (linspace64_nat 0 (2 * binary64.np.pi) (S n)) as [th [Hth [Hlen Hnth]]].
  replace (Z.of_nat (S n)) with (Z.of_nat n + 1)%Z in Hth by lia.
  assert (length (all_but_last th) = n) as Hlen'
      by (unfold all_but_last; rewrite length_removelast, Hlen; lia).
  exists (map cos (all_but_last th)), (map sin (all_but_last th)), th.
  split.
  { unfold binary64.RingDistribution.generate_points. rewrite Hth. reflexivity. }
  split; [exact Hth |].
  split; [now rewrite length_map |]. split; [now rewrite length_map |].
  split; [exact Hlen |]. split.
  - intros k Hk.
    rewrite !(nth_map_default _ (all_but_last th) 0%float) by lia.
    unfold all_but_last. rewrite nth_removelast by lia.
    split; [apply Hnth; lia | split; reflexivity].
  - intros Hn. rewrite Hnth by lia. unfold linspace_sample. cbv zeta.
    destruct (Nat.leb_spec (S n) 1) as [Hle | _]; [lia |].
    replace (S n - 1)%nat with n by lia. now rewrite Nat.eqb_refl.
Qed.

(** ** BaseDistribution.dx and dy *)

Section Steps.
Local Open Scope R_scope.




End Steps.

Lemma first_difference64 (l : list float) :
  ((length l < 2)%nat ->
   (x1 <- getitem l 1 ;; x0 <- getitem l 0 ;; Return (PrimFloat.sub x1 x0))
   = Raise IndexError)
  /\ ((2 <= length l)%nat ->
      (x1 <- getitem l 1 ;; x0 <- getitem l 0 ;; Return (PrimFloat.sub x1 x0))
      = Return (PrimFloat.sub (nth 1 l 0%float) (nth 0 l 0%float))).
Proof.
  split; intros Hlen.
  - unfold getitem at 1. cbv zeta.
    destruct (Z.ltb_spec 1 0) as [Hneg | _]; [lia |].
    destruct (Z.leb_spec (Z.of_nat (length l)) 1) as [_ | Hlt]; [reflexivity | lia].
  - change 1%Z with (Z.of_nat 1). change 0%Z with (Z.of_nat 0).
    rewrite (getitem_nth l 0%float) by lia. cbn [bind Return].
    rewrite (getitem_nth l 0%float) by lia. reflexivity.
Qed.

Lemma dx64_short (x : list float) :
  (length x < 2)%nat -> binary64.BaseDistribution.dx x = Raise IndexError.
Proof. apply first_difference64. Qed.

Lemma dx64_long (x : list float) :
  (2 <= length x)%nat ->
  binary64.BaseDistribution.dx x
  = Return (PrimFloat.sub (nth 1 x 0%float) (nth 0 x 0%float)).
Proof. apply first_difference64. Qed.

Lemma dy64_short (y : list float) :
  (length y < 2)%nat -> binary64.BaseDistribution.dy y = Raise IndexError.
Proof. apply first_difference64. Qed.

Lemma dy64_long (y : list float) :
  (2 <= length y)%nat ->
  binary64.BaseDistribution.dy y
  = Return (PrimFloat.sub (nth 1 y 0%float) (nth 0 y 0%float)).
Proof. apply first_difference64. Qed.

Example line_x_11_dx :
  exists xs ys,
    binary64.LineXDistribution.generate_points false 11 = Return (xs, ys)
    /\ binary64.BaseDistribution.dx xs = Return 0.19999999999999996%float
    /\ binary64.BaseDistribution.dy ys = Return 0%float.
Proof.
  eexists. eexists. split; [vm_compute; reflexivity |].
  split; vm_compute; reflexivity.
Qed.

(** X4: [dx] and [dy] of a line along x.  With fewer than two samples both
    raise [IndexError].  With two samples or more [dy] is [0] and [dx] is
    the binary64 difference of the first two samples of
    [np.linspace(start, 1, n)]. *)
Theorem LineX_steps (positive_only : bool) (n : nat) :
  exists xs ys : list float,
    binary64.LineXDistribution.generate_points positive_only (Z.of_nat n)
    = Return (xs, ys)
    /\ ((n < 2)%nat ->
        binary64.BaseDistribution.dx xs = Raise IndexError
        /\ binary64.BaseDistribution.dy ys = Raise IndexError)
    /\ ((2 <= n)%nat ->
        binary64.BaseDistribution.dx xs
        = Return (PrimFloat.sub
                    (linspace_sample (if positive_only then 0 else -1) 1 n 1)
                    (linspace_sample (if positive_only then 0 else -1) 1 n 0))
        /\ binary64.BaseDistribution.dy ys = Return 0%float).
Proof.
  destruct (linspace64_nat (if positive_only then 0 else -1)%float 1 n)
    as [xs [Hxs [Hlen Hnth]]].
  exists xs, (repeat 0%float n). split; [| split].
  - unfold binary64.LineXDistribution.generate_points.
    destruct positive_only; rewrite Hxs; simpl bind; rewrite zeros64_nat; reflexivity.
  - intros Hn. split.
    + apply dx64_short. lia.
    + apply dy64_short. rewrite repeat_length. lia.
  - intros Hn. split.
    + rewrite dx64_long by lia. rewrite !Hnth by lia. reflexivity.
    + rewrite dy64_long by (rewrite repeat_length; lia).
      rewrite !nth_repeat. reflexivity.
Qed.



(** X6: [dx] and [dy] of the cross read the first two points of the
    vertical arm.  With no point per arm both raise [IndexError]; with one
    point per arm the two points are [(0, -1)] and [(-1, 0)], so [dx = -1]
    and [dy = 1]; with [n >= 2] points per arm [dx = 0] and [dy] is the
    binary64 difference of the first two samples of
    [np.linspace(-1, 1, n)]. *)
Theorem Cross_steps (n : nat) :
  exists xs ys : list float,
    binary64.CrossDistribution.generate_points (Z.of_nat n) = Return (xs, ys)
    /\ (n = 0%nat ->
        binary64.BaseDistribution.dx xs = Raise IndexError
        /\ binary64.BaseDistribution.dy ys = Raise IndexError)
    /\ (n = 1%nat ->
        binary64.BaseDistribution.dx xs = Return (-1)%float
        /\ binary64.BaseDistribution.dy ys = Return 1%float)
    /\ ((2 <= n)%nat ->
        binary64.BaseDistribution.dx xs = Return 0%float
        /\ binary64.BaseDistribution.dy ys
           = Return (PrimFloat.sub (linspace_sample (-1) 1 n 1)
                                   (linspace_sample (-1) 1 n 0))).
Proof.
  destruct (linspace64_nat (-1) 1 n) as [arm [Harm [Hlen Hnth]]].
  exists (repeat 0%float n ++ arm), (arm ++ repeat 0%float n).
  split.
  { unfold binary64.CrossDistribution.generate_points.
    rewrite zeros64_nat, Harm. reflexivity. }
  split; [| split].
  - intros ->.
    destruct arm; [| discriminate Hlen].
    split; [apply dx64_short | apply dy64_short]; simpl; lia.
  - intros ->.
    destruct arm as [| a [| b arm]]; try discriminate Hlen.
    specialize (Hnth 0%nat ltac:(lia)). simpl nth in Hnth. subst a.
    split; vm_compute; reflexivity.
  - intros Hn. split.
    + rewrite dx64_long by (rewrite length_app, repeat_length; lia).
      rewrite !app_nth1 by (rewrite repeat_length; lia).
      rewrite !nth_repeat. reflexivity.
    + rewrite dy64_long by (rewrite length_app, repeat_length; lia).
      rewrite !app_nth1 by lia. rewrite !Hnth by lia. reflexivity.
Qed.

(** ** UniformDistribution: the grid and the mask *)

Lemma zip_with_map {T A B C : Type} (h : A -> B -> C) (a : T -> A) (b : T -> B)
      (l : list T) :
  zip_with h (map a l) (map b l) = map (fun t => h (a t) (b t)) l.
Proof.
  unfold zip_with. induction l as [| t l IH]; simpl; [reflexivity |].
  now rewrite IH.
Qed.

Lemma zip_with_map_r {A B C : Type} (h : A -> B -> C) (b : A -> B) (l : list A) :
  zip_with h l (map b l) = map (fun t => h t (b t)) l.
Proof.
  rewrite <- (map_id l) at 1. apply zip_with_map.
Qed.

Lemma combine_app_same {A B : Type} (l1 l2 : list A) (l1' l2' : list B) :
  length l1 = length l1' ->
  combine (l1 ++ l2) (l1' ++ l2') = combine l1 l1' ++ combine l2 l2'.
Proof.
  revert l1'. induction l1 as [| a l1 IH]; intros [| b l1'] Hlen;
    simpl in *; try discriminate; [reflexivity |].
  f_equal. apply IH. lia.
Qed.

Lemma combine_concat_map {T A B : Type} (F : T -> list A) (G : T -> list B)
      (l : list T) :
  (forall t, length (F t) = length (G t)) ->
  combine (concat (map F l)) (concat (map G l))
  = concat (map (fun t => combine (F t) (G t)) l).
Proof.
  intros Hlen. induction l as [| t l IH]; simpl; [reflexivity |].
  rewrite combine_app_same by apply Hlen. now rewrite IH.
Qed.

Lemma combine_map_const {A B : Type} (l : list A) (b : B) :
  combine l (map (fun _ => b) l) = map (fun a => (a, b)) l.
Proof. induction l as [| a l IH]; simpl; [reflexivity | now rewrite IH]. Qed.

Lemma select_row_map {T : Type} (a : T -> float) (m : T -> bool) (l : list T) :
  binary64.np.select_row (map a l) (map m l) = map a (filter m l).
Proof.
  unfold binary64.np.select_row. induction l as [| t l IH]; simpl; [reflexivity |].
  destruct (m t); simpl; now rewrite IH.
Qed.

(** [generate_points] once the grid [g = np.linspace(-1, 1, n)] is known:
    row after row (one row per [y] of the grid), the [x] of the grid that
    pass the mask. *)
Lemma uniform_rows (num_points : Z) (g : list float) :
  binary64.np.linspace (-1) 1 num_points = Return g ->
  binary64.UniformDistribution.generate_points num_points
  = Return (concat (map (fun yi => filter (fun x => PrimFloat.leb (x * x + yi * yi) 1) g) g),
            concat (map (fun yi => map (fun _ => yi)
                                       (filter (fun x => PrimFloat.leb (x * x + yi * yi) 1) g))
                        g)).
Proof.
  intros Hg. unfold binary64.UniformDistribution.generate_points. rewrite Hg.
  cbn [bind Return]. unfold binary64.np.meshgrid, binary64.np.mask_select.
  rewrite (zip_with_map (zip_with (fun a b => PrimFloat.add (a * a) (b * b)))
                        (fun _ => g) (fun yi => map (fun _ => yi) g) g).
  rewrite map_map.
  rewrite (zip_with_map binary64.np.select_row (fun _ => g)).
  rewrite (zip_with_map binary64.np.select_row (fun yi => map (fun _ : float => yi) g)).
  unfold Return. f_equal. f_equal.
  - f_equal. apply map_ext. intros yi.
    rewrite zip_with_map_r, map_map.
    rewrite <- (map_id g) at 1. rewrite select_row_map. apply map_id.
  - f_equal. apply map_ext. intros yi.
    rewrite zip_with_map_r, map_map.
    apply select_row_map.
Qed.

Lemma grid_members (n : nat) (g : list float) :
  binary64.np.linspace (-1) 1 (Z.of_nat n) = Return g ->
  forall x, In x g <-> exists i, (i < n)%nat /\ x = linspace_sample (-1) 1 n i.
Proof.
  intros Hg x.
  destruct (linspace64_nat (-1) 1 n) as [g' [Hg' [Hlen Hnth]]].
  rewrite Hg in Hg'. unfold Return in Hg'.
  assert (g = g') as <- by congruence.
  split.
  - intros Hin. destruct (In_nth g x 0%float Hin) as [i [Hi Hx]].
    exists i. split; [lia |]. rewrite <- Hx. apply Hnth. lia.
  - intros [i [Hi ->]]. rewrite <- Hnth by exact Hi.
    apply nth_In. lia.
Qed.

(** Eleven samples per axis: [0.6 * 0.6 + 0.8 * 0.8] would be [1], but the
    grid holds [0.60000000000000009], and the four points it forms with
    [0.8] fall outside the mask: 77 points, not 81. *)
Example uniform_11 :
  exists xs ys,
    binary64.UniformDistribution.generate_points 11 = Return (xs, ys)
    /\ length xs = 77%nat /\ length ys = 77%nat
    /\ PrimFloat.leb (0.60000000000000009 * 0.60000000000000009 + 0.8 * 0.8) 1 = false.
Proof.
  eexists. eexists. split; [vm_compute; reflexivity |].
  repeat split; vm_compute; reflexivity.
Qed.

Example uniform_negative :
  binary64.UniformDistribution.generate_points (-1)
  = Raise (ValueError "Number of samples, -1, must be non-negative.").
Proof. reflexivity. Qed.

Example uniform_1 :
  binary64.UniformDistribution.generate_points 1 = Return ([], []).
Proof. vm_compute. reflexivity. Qed.

Example uniform_3 :
  binary64.UniformDistribution.generate_points 3
  = Return ([0; -1; 0; 1; 0]%float, [-1; 0; 0; 0; 1]%float).
Proof. vm_compute. reflexivity. Qed.

(** X7: the points of [UniformDistribution.generate_points(n)] are exactly
    the points of the [n] by [n] grid of [np.linspace(-1, 1, n)] samples
    that pass the mask as binary64 computes it: [(x, y)] is generated if and
    only if both coordinates are grid samples and the rounded
    [x * x + y * y] compares [<= 1].  (For [n = 1] the only grid point is
    [(-1, -1)], so nothing is generated.) *)
Theorem Uniform_points (n : nat) :
  exists xs ys : list float,
    binary64.UniformDistribution.generate_points (Z.of_nat n) = Return (xs, ys)
    /\ length xs = length ys
    /\ forall x y : float,
        In (x, y) (combine xs ys)
        <-> ((exists i, (i < n)%nat /\ x = linspace_sample (-1) 1 n i)
             /\ (exists j, (j < n)%nat /\ y = linspace_sample (-1) 1 n j)
             /\ PrimFloat.leb (x * x + y * y) 1 = true).
Proof.
  destruct (linspace64_nat (-1) 1 n) as [g [Hg _]].
  eexists. eexists. split; [exact (uniform_rows _ Hg) |].
  assert (forall yi : float,
             length (filter (fun x => PrimFloat.leb (x * x + yi * yi) 1) g)
             = length (map (fun _ : float => yi)
                           (filter (fun x => PrimFloat.leb (x * x + yi * yi) 1) g)))
    as Hrow by (intros yi; now rewrite length_map).
  split.
  { rewrite !length_concat, !map_map. f_equal. apply map_ext. exact Hrow. }
  intros x y.
  rewrite (combine_concat_map _ _ g Hrow).
  rewrite in_concat.
  rewrite <- !(grid_members n Hg).
  split.
  - intros [row [Hrow_in Hxy]].
    apply in_map_iff in Hrow_in. destruct Hrow_in as [yi [<- Hyi]].
    rewrite combine_map_const in Hxy.
    apply in_map_iff in Hxy. destruct Hxy as [x' [Heq Hx']].
    assert (x' = x /\ yi = y) as [-> ->] by (split; congruence).
    apply filter_In in Hx'. destruct Hx' as [Hx' Hmask].
    split; [exact Hx' |]. split; [exact Hyi | exact Hmask].
  - intros [Hx [Hy Hdisk]].
    exists (combine (filter (fun x => PrimFloat.leb (x * x + y * y) 1) g)
                    (map (fun _ : float => y)
                         (filter (fun x => PrimFloat.leb (x * x + y * y) 1) g))).
    split.
    + apply in_map_iff. exists y. split; [reflexivity | exact Hy].
    + rewrite combine_map_const. apply in_map_iff. exists x.
      split; [reflexivity |]. apply filter_In. split; [exact Hx | exact Hdisk].
Qed.

(** ** UniformDistribution: the tolerance *)

Lemma compare_cont_le (m a b : positive) :
  (a <= b)%positive ->
  match PosDef.Pos.compare_cont Eq m a with Gt => false | _ => true end = true ->
  match PosDef.Pos.compare_cont Eq m b with Gt => false | _ => true end = true.
Proof.
  intros Hab.
  change (PosDef.Pos.compare_cont Eq m a) with (Pos.compare m a).
  change (PosDef.Pos.compare_cont Eq m b) with (Pos.compare m b).
  destruct (Pos.compare_spec m a) as [Heq | Hlt | Hgt]; intros H; try discriminate H.
  - subst m. destruct (Pos.compare_spec a b) as [Heq | Hlt | Hgt]; trivial; lia.
  - destruct (Pos.compare_spec m b) as [Heq | Hlt' | Hgt]; trivial; lia.
Qed.

(** What compares [<= 1] on binary64 compares [<= 1 + 1e-9]: the two
    bounds have the same exponent, and [1] the smaller mantissa. *)
Lemma leb_one_tolerance (v : float) :
  PrimFloat.leb v 1 = true -> PrimFloat.leb v (1 + 1e-9) = true.
Proof.
  rewrite !leb_spec.
  assert (Prim2SF 1 = S754_finite false 4503599627370496 (-52)) as ->
      by (vm_compute; reflexivity).
  assert (Prim2SF (1 + 1e-9) = S754_finite false 4503599631874096 (-52)) as ->
      by (vm_compute; reflexivity).
  unfold SFleb, SFcompare.
  destruct (Prim2SF v) as [s | s | | s m e]; try (destruct s; trivial; fail);
    [trivial |].
  destruct s; [trivial |].
  destruct (e ?= -52)%Z; trivial.
  apply compare_cont_le.
  apply Pos.leb_le. vm_compute. reflexivity.
Qed.

(** A row of [x] and a row of [y] under the mask computed from them. *)
Lemma select_row_in_mask (rx ry : list float) :
  Forall2 (fun x y => PrimFloat.leb (x * x + y * y) 1 = true)
          (binary64.np.select_row
             rx (map (fun v => PrimFloat.leb v 1)
                     (zip_with (fun a b => PrimFloat.add (a * a) (b * b)) rx ry)))
          (binary64.np.select_row
             ry (map (fun v => PrimFloat.leb v 1)
                     (zip_with (fun a b => PrimFloat.add (a * a) (b * b)) rx ry))).
Proof.
  revert ry. induction rx as [| a rx IH]; intros [| b ry];
    try (constructor; fail).
  unfold binary64.np.select_row, zip_with. cbn [combine map fst snd].
  destruct (PrimFloat.leb (a * a + b * b) 1) eqn:Hmask; cbn [filter snd map fst].
  - constructor; [exact Hmask | apply IH].
  - apply IH.
Qed.

Lemma mask_select_in_mask (x y : list (list float)) :
  Forall2 (fun x y => PrimFloat.leb (x * x + y * y) 1 = true)
          (binary64.np.mask_select
             x (map (map (fun v => PrimFloat.leb v 1))
                    (zip_with (zip_with (fun a b => PrimFloat.add (a * a) (b * b))) x y)))
          (binary64.np.mask_select
             y (map (map (fun v => PrimFloat.leb v 1))
                    (zip_with (zip_with (fun a b => PrimFloat.add (a * a) (b * b))) x y))).
Proof.
  revert y. induction x as [| rx x IH]; intros [| ry y];
    try (constructor; fail).
  unfold binary64.np.mask_select, zip_with. cbn [combine map fst snd concat].
  apply Forall2_app; [apply select_row_in_mask | apply IH].
Qed.

(** X10: whenever [UniformDistribution.generate_points] returns, [x] and
    [y] have the same length and every point passes the test
    [x * x + y * y <= 1 + 1e-9] as binary64 evaluates it (each passed the
    mask [<= 1]); the only calls that do not return are those
    [np.linspace] rejects for a negative sample count. *)
Theorem Uniform_within_tolerance (num_points : Z) :
  match binary64.UniformDistribution.generate_points num_points with
  | inr (xs, ys) =>
      length xs = length ys
      /\ Forall2 (fun x y => PrimFloat.leb (x * x + y * y) (1 + 1e-9) = true) xs ys
  | inl _ => (num_points < 0)%Z
  end.
Proof.
  unfold binary64.UniformDistribution.generate_points.
  destruct (Z.lt_ge_cases num_points 0) as [Hneg | Hge].
  - destruct (linspace64_negative (-1) 1 Hneg) as [msg ->]. exact Hneg.
  - destruct (linspace64_nat (-1) 1 (Z.to_nat num_points)) as [l [Hl _]].
    rewrite Z2Nat.id in Hl by exact Hge. rewrite Hl.
    cbn [bind Return binary64.np.meshgrid].
    pose proof (mask_select_in_mask (map (fun _ => l) l)
                                    (map (fun yi => map (fun _ => yi) l) l)) as Hmask.
    split; [exact (Forall2_length Hmask) |].
    revert Hmask. apply Forall2_impl.
    intros x y. apply leb_one_tolerance.
Qed.

(** ** GaussianQuadrature: points and weights *)

Lemma radius_dict_keys (num_rings : Z) :
  (1 <= num_rings <= 6)%Z ->
  exists radius, lookup Z.eqb num_rings GaussianQuadrature.radius_dict = Some radius
                 /\ length radius = Z.to_nat num_rings.
Proof.
  intros H.
  assert (num_rings = 1 \/ num_rings = 2 \/ num_rings = 3 \/ num_rings = 4
          \/ num_rings = 5 \/ num_rings = 6)%Z as Hn by lia.
  repeat (destruct Hn as [-> | Hn]); try subst num_rings;
    (eexists; split; [reflexivity | reflexivity]).
Qed.

Lemma length_outer_flatten (a b : list float) :
  length (GaussianQuadrature.outer_flatten a b) = (length a * length b)%nat.
Proof.
  unfold GaussianQuadrature.outer_flatten.
  induction a as [| ai a IH]; simpl; [reflexivity |].
  now rewrite length_app, length_map, IH.
Qed.

Lemma nth_outer_flatten (a b : list float) (i j : nat) (d : float) :
  (i < length a)%nat -> (j < length b)%nat ->
  nth (i * length b + j) (GaussianQuadrature.outer_flatten a b) d
  = PrimFloat.mul (nth i a d) (nth j b d).
Proof.
  unfold GaussianQuadrature.outer_flatten.
  revert i. induction a as [| ai a IH]; intros i Hi Hj; simpl in Hi; [lia |].
  simpl flat_map. destruct i as [| i].
  - simpl. rewrite app_nth1 by (rewrite length_map; exact Hj).
    apply (nth_map_default (fun bj => PrimFloat.mul ai bj) b). exact Hj.
  - rewrite app_nth2 by (rewrite length_map; simpl; lia).
    rewrite length_map.
    replace (S i * length b + j - length b)%nat with (i * length b + j)%nat
      by (simpl; lia).
    simpl nth. apply IH; [lia | exact Hj].
Qed.

(** X8: [GaussianQuadrature.generate_points] and [get_weights] accept the
    same ring counts, 1 to 6, and raise the same [ValueError] for any other.
    When they return there is one weight per ring but one point per ring and
    angle: as many points as weights in symmetric mode, three times as many
    otherwise. *)
Theorem GaussianQuadrature_points_per_weight
        (cos sin : float -> float) (is_symmetric : bool) (num_rings : Z) :
  match GaussianQuadrature.generate_points cos sin is_symmetric num_rings,
        GaussianQuadrature.get_weights is_symmetric num_rings with
  | inr (xs, ys), inr weights =>
      (1 <= num_rings <= 6)%Z
      /\ length weights = Z.to_nat num_rings
      /\ length xs = ((if is_symmetric then 1 else 3) * length weights)%nat
      /\ length ys = ((if is_symmetric then 1 else 3) * length weights)%nat
  | inl e, inl e' => e = e' /\ ~ (1 <= num_rings <= 6)%Z
  | _, _ => False
  end.
Proof.
  unfold GaussianQuadrature.generate_points, GaussianQuadrature._get_radius,
    GaussianQuadrature.get_weights.
  destruct (Z_le_dec 1 num_rings) as [Hlo |];
    [destruct (Z_le_dec num_rings 6) as [Hhi |] |].
  - destruct (@radius_dict_keys num_rings) as [radius [-> Hr]]; [lia |].
    destruct (@weights_dict_keys num_rings) as [weights [-> Hw]]; [lia |].
    cbn [Return]. rewrite !length_outer_flatten, !length_map, Hr.
    destruct is_symmetric; rewrite length_map, Hw; simpl length;
      repeat split; lia.
  - rewrite !lookup_Z_none by (apply ring_count_not_key; lia).
    split; [reflexivity | lia].
  - rewrite !lookup_Z_none by (apply ring_count_not_key; lia).
    split; [reflexivity | lia].
Qed.

(** X9: the points of [GaussianQuadrature.generate_points] are laid out
    ring by ring: with [m] angles ([m = 1] in symmetric mode, the angle 0;
    [m = 3] otherwise, the angles -1.04719755, 0 and 1.04719755), the point
    at index [m * i + j] has [x = radius[i] * cos(theta[j])] and
    [y = radius[i] * sin(theta[j])], for [radius] the table
    [_get_radius] returns. *)
Theorem GaussianQuadrature_layout
        (cos sin : float -> float) (is_symmetric : bool) (num_rings : Z)
        (xs ys : list float) :
  GaussianQuadrature.generate_points cos sin is_symmetric num_rings = Return (xs, ys) ->
  exists radius : list float,
    GaussianQuadrature._get_radius num_rings = Return radius
    /\ forall i j : nat,
        (i < length radius)%nat ->
        (j < (if is_symmetric then 1 else 3))%nat ->
        let theta := if is_symmetric then [0.0]%float
                     else [-1.04719755; 0.0; 1.04719755]%float in
        nth ((if is_symmetric then 1 else 3) * i + j) xs 0%float
        = PrimFloat.mul (nth i radius 0%float) (cos (nth j theta 0%float))
        /\ nth ((if is_symmetric then 1 else 3) * i + j) ys 0%float
           = PrimFloat.mul (nth i radius 0%float) (sin (nth j theta 0%float)).
Proof.
  unfold GaussianQuadrature.generate_points.
  destruct (GaussianQuadrature._get_radius num_rings) as [e | radius];
    [discriminate |].
  intros Hrun. unfold Return in Hrun.
  assert (xs = GaussianQuadrature.outer_flatten
                 radius (map cos (if is_symmetric then [0.0]%float
                                  else [-1.04719755; 0.0; 1.04719755]%float))
          /\ ys = GaussianQuadrature.outer_flatten
                    radius (map sin (if is_symmetric then [0.0]%float
                                     else [-1.04719755; 0.0; 1.04719755]%float)))
    as [-> ->] by (split; congruence).
  exists radius. split; [reflexivity |].
  intros i j Hi Hj. cbv zeta.
  destruct is_symmetric.
  - split.
    + rewrite <- (nth_map_default cos [0.0]%float 0%float 0%float)
        by (simpl; lia).
      replace (1 * i + j)%nat
        with (i * length (map cos [0.0]%float) + j)%nat by (simpl; lia).
      apply nth_outer_flatten; [exact Hi | simpl; lia].
    + rewrite <- (nth_map_default sin [0.0]%float 0%float 0%float)
        by (simpl; lia).
      replace (1 * i + j)%nat
        with (i * length (map sin [0.0]%float) + j)%nat by (simpl; lia).
      apply nth_outer_flatten; [exact Hi | simpl; lia].
  - split.
    + rewrite <- (nth_map_default cos [-1.04719755; 0.0; 1.04719755]%float
                                  0%float 0%float) by (simpl; lia).
      replace (3 * i + j)%nat
        with (i * length (map cos [-1.04719755; 0.0; 1.04719755]%float) + j)%nat
        by (simpl; lia).
      apply nth_outer_flatten; [exact Hi | simpl; lia].
    + rewrite <- (nth_map_default sin [-1.04719755; 0.0; 1.04719755]%float
                                  0%float 0%float) by (simpl; lia).
      replace (3 * i + j)%nat
        with (i * length (map sin [-1.04719755; 0.0; 1.04719755]%float) + j)%nat
        by (simpl; lia).
      apply nth_outer_flatten; [exact Hi | simpl; lia].
Qed.

Lemma GaussianQuadrature_layout_witness :
  exists radius : list float,
    GaussianQuadrature._get_radius 2 = Return radius
    /\ forall i j : nat,
        (i < length radius)%nat ->
        (j < (if true then 1 else 3))%nat ->
        let theta := if true then [0.0]%float
                     else [-1.04719755; 0.0; 1.04719755]%float in
        nth ((if true then 1 else 3) * i + j) [0.45970; 0.88807]%float 0%float
        = PrimFloat.mul (nth i radius 0%float)
                        ((fun _ : float => 1.0%float) (nth j theta 0%float))
        /\ nth ((if true then 1 else 3) * i + j) [0.0; 0.0]%float 0%float
           = PrimFloat.mul (nth i radius 0%float)
                           ((fun _ : float => 0.0%float) (nth j theta 0%float)).
Proof.
  apply (@GaussianQuadrature_layout (fun _ => 1.0%float) (fun _ => 0.0%float)
                                    true 2 [0.45970; 0.88807]%float [0.0; 0.0]%float).
  reflexivity.
Defined.

(** ** Variable: what construction binds *)

Lemma dict_get_app (f : string) (l l' : dict) :
  dict_get f (l ++ l')
  = match dict_get f l with Some x => Some x | None => dict_get f l' end.
Proof.
  unfold dict_get. induction l as [| [k v] l IH]; simpl; [reflexivity |].
  destruct (String.eqb f k); [reflexivity | exact IH].
Qed.

Lemma dict_get_none (f : string) (l : dict) :
  dict_get f l = None <-> ~ In f (map fst l).
Proof.
  unfold dict_get. induction l as [| [k v] l IH]; simpl; [tauto |].
  destruct (String.eqb_spec f k) as [-> | Hne].
  - split; [discriminate | intros H; exfalso; apply H; now left].
  - rewrite IH. split; [intros H [Hk | Hin]; [congruence | contradiction] | tauto].
Qed.

Lemma dict_get_rev_none (f : string) (l : dict) :
  dict_get f l = None -> dict_get f (rev l) = None.
Proof.
  rewrite !dict_get_none. intros H Hin. apply H.
  rewrite map_rev in Hin. now apply in_rev.
Qed.

(** In a dictionary with no key twice the order of the entries is
    immaterial for a lookup. *)
Lemma dict_get_rev (f : string) (l : dict) :
  NoDup (map fst l) -> dict_get f (rev l) = dict_get f l.
Proof.
  induction l as [| [k v] l IH]; intros Hnd; [reflexivity |].
  simpl in Hnd. inversion Hnd as [| ? ? Hk Hnd']; subst.
  simpl rev. rewrite dict_get_app, (IH Hnd').
  change (dict_get f [(k, v)]) with (if String.eqb f k then Some v else None).
  change (dict_get f ((k, v) :: l))
    with (if String.eqb f k then Some v else dict_get f l).
  destruct (String.eqb_spec f k) as [-> | Hne].
  - apply dict_get_none in Hk. now rewrite Hk.
  - now destruct (dict_get f l).
Qed.

(** [{**d, **kw}[f]]: the last binding of [f] in [kw], else that of [d]. *)
Lemma dict_get_merge (f : string) (d kw : dict) :
  dict_get f (dict_merge d kw)
  = match dict_get f (rev kw) with Some x => Some x | None => dict_get f d end.
Proof.
  unfold dict_merge. revert d.
  induction kw as [| [k v] kw IH]; intros d; [reflexivity |].
  simpl fold_left. rewrite IH. simpl rev. rewrite dict_get_app, dict_get_set.
  destruct (dict_get f (rev kw)); [reflexivity |].
  change (dict_get f [(k, v)]) with (if String.eqb f k then Some v else None).
  destruct (String.eqb f k); reflexivity.
Qed.

Section Binding.
Import variable.
Context {W : Type} (api : Optic W).

(** The keywords a behaviour class is called with, seen through a lookup. *)
Lemma behavior_kwargs_get (optic : pyval) (type_name f : string) (kw : dict) :
  kwargs_ok kw ->
  dict_get f (dict_merge [("type_name", PyStr type_name); ("optic", optic)]%string kw)
  = if String.eqb f "type_name" then Some (PyStr type_name)
    else if String.eqb f "optic" then Some optic
         else dict_get f kw.
Proof.
  intros [Hnd Hparam]. rewrite dict_get_merge, (@dict_get_rev f kw Hnd).
  unfold dict_get at 2. simpl.
  destruct (String.eqb_spec f "type_name") as [-> | _].
  - rewrite Hparam by (simpl; tauto). reflexivity.
  - destruct (String.eqb_spec f "optic") as [-> | _].
    + rewrite Hparam by (simpl; tauto). reflexivity.
    + now destruct (dict_get f kw).
Qed.

Lemma behavior_kwargs_missing (optic : pyval) (type_name f : string) (kw : dict) :
  dict_get f kw = None ->
  f <> "type_name"%string -> f <> "optic"%string ->
  required f (dict_merge [("type_name", PyStr type_name); ("optic", optic)]%string kw)
  = Raise TypeError.
Proof.
  intros Hnone Ht Ho. unfold required.
  rewrite dict_get_merge, (@dict_get_rev_none f kw Hnone).
  unfold dict_get. simpl.
  destruct (String.eqb_spec f "type_name"); [contradiction |].
  destruct (String.eqb_spec f "optic"); [contradiction | reflexivity].
Qed.

Lemma no_self_raises (d : dict) (e : exn) : no_self d = inl e -> e = TypeError.
Proof.
  unfold no_self. destruct (has_key "self" d); unfold Raise, Return; congruence.
Qed.

Lemma required_raises (name : string) (d : dict) (e : exn) :
  required name d = inl e -> e = TypeError.
Proof.
  unfold required. destruct (dict_get name d); unfold Raise, Return; congruence.
Qed.
End Binding.

(** X11: building a [Variable] reads the optic but never changes it, and
    prints one warning line for each keyword outside the whitelist, in the
    order of the keywords, and nothing else; the variable keeps the optic,
    the type name and the keywords it was given. *)
Theorem Variable_construction_effects {W : Type} (api : variable.Optic W)
        (optic : pyval) (type_name : string) (min_val max_val : pyval)
        (kwargs : dict) (st st' : variable.state W) (v : variable.Var) :
  variable.__init__ api optic type_name min_val max_val kwargs st = Return (v, st') ->
  variable.world st' = variable.world st
  /\ variable.stdout st'
     = variable.stdout st
       ++ map (fun kv => variable.warning (fst kv))
              (filter (fun kv => negb (existsb (String.eqb (fst kv))
                                               variable.allowed_attributes))
                      kwargs)
  /\ variable.optic v = optic
  /\ variable.type v = type_name
  /\ variable.kwargs v = kwargs.
Proof.
  intros Hinit. rewrite init_run in Hinit.
  destruct (lookup String.eqb type_name (variable.variable_types api)) as [cls |].
  - destruct (cls _ (variable.world st)) as [e | behavior]; [discriminate |].
    unfold Return in Hinit. injection Hinit as <- <-. repeat split.
  - unfold Return in Hinit. injection Hinit as <- <-. repeat split.
Qed.

Lemma Variable_construction_effects_witness :
  variable.world
    {| variable.world := [PyFloat 10; PyFloat 20; PyFloat 30];
       variable.stdout := ["Warning: foo is not a recognized attribute"%string] |}
  = [PyFloat 10; PyFloat 20; PyFloat 30]
  /\ ["Warning: foo is not a recognized attribute"%string]
     = [] ++ map (fun kv => variable.warning (fst kv))
                 (filter (fun kv => negb (existsb (String.eqb (fst kv))
                                                  variable.allowed_attributes))
                         [("surface_number"%string, PyInt 2);
                          ("foo"%string, PyInt 1)])
  /\ PyRef 0 = PyRef 0
  /\ "radius"%string = "radius"%string
  /\ [("surface_number"%string, PyInt 2); ("foo"%string, PyInt 1)]
     = [("surface_number"%string, PyInt 2); ("foo"%string, PyInt 1)].
Proof.
  apply (@Variable_construction_effects
           _ stub.in_place (PyRef 0) "radius" PyNone PyNone
           [("surface_number"%string, PyInt 2); ("foo"%string, PyInt 1)]
           {| variable.world := [PyFloat 10; PyFloat 20; PyFloat 30];
              variable.stdout := [] |}
           {| variable.world := [PyFloat 10; PyFloat 20; PyFloat 30];
              variable.stdout := ["Warning: foo is not a recognized attribute"%string] |}
           {| variable.optic := PyRef 0; variable.type := "radius";
              variable.min_val := PyNone; variable.max_val := PyNone;
              variable.kwargs := [("surface_number"%string, PyInt 2);
                                  ("foo"%string, PyInt 1)];
              variable.attrs := [("surface_number"%string, PyInt 2)];
              variable.variable_behavior :=
                Some (variable.RadiusVariable (PyRef 0) (PyRef 1) (PyInt 2)) |}).
  reflexivity.
Defined.

Lemma keep_attribute_get (k : string) (kw attrs : dict) :
  dict_get k (fold_left keep_attribute kw attrs)
  = if existsb (String.eqb k) variable.allowed_attributes
    then match dict_get k (rev kw) with
         | Some x => Some x
         | None => dict_get k attrs
         end
    else dict_get k attrs.
Proof.
  revert attrs. induction kw as [| [f v] kw IH]; intros attrs.
  - cbn [fold_left rev]. change (dict_get k []) with (@None pyval).
    destruct (existsb (String.eqb k) variable.allowed_attributes); reflexivity.
  - simpl fold_left. rewrite IH. simpl rev. rewrite dict_get_app.
    change (dict_get k [(f, v)]) with (if String.eqb k f then Some v else None).
    unfold keep_attribute. cbn [fst snd].
    destruct (String.eqb_spec k f) as [<- | Hne].
    + destruct (existsb (String.eqb k) variable.allowed_attributes);
        [| reflexivity].
      rewrite dict_get_set, String.eqb_refl.
      now destruct (dict_get k (rev kw)).
    + destruct (existsb (String.eqb f) variable.allowed_attributes).
      * rewrite dict_get_set.
        destruct (String.eqb_spec k f); [contradiction |].
        destruct (existsb (String.eqb k) variable.allowed_attributes);
          [now destruct (dict_get k (rev kw)) | reflexivity].
      * destruct (existsb (String.eqb k) variable.allowed_attributes);
          [now destruct (dict_get k (rev kw)) | reflexivity].
Qed.

(** X12: the attributes [setattr] puts on a constructed [Variable] are the
    whitelisted keywords, each with the value it was passed with; a keyword
    outside the whitelist does not become an attribute. *)
Theorem Variable_attributes {W : Type} (api : variable.Optic W)
        (optic : pyval) (type_name : string) (min_val max_val : pyval)
        (kwargs : dict) (st st' : variable.state W) (v : variable.Var)
        (k : string) :
  NoDup (map fst kwargs) ->
  variable.__init__ api optic type_name min_val max_val kwargs st = Return (v, st') ->
  dict_get k (variable.attrs v)
  = if existsb (String.eqb k) variable.allowed_attributes
    then dict_get k kwargs
    else None.
Proof.
  intros Hnd Hinit. rewrite init_run in Hinit.
  assert (variable.attrs v = fold_left keep_attribute kwargs []) as ->.
  { destruct (lookup String.eqb type_name (variable.variable_types api)) as [cls |].
    - destruct (cls _ (variable.world st)) as [e | behavior]; [discriminate |].
      unfold Return in Hinit. injection Hinit as <- _. reflexivity.
    - unfold Return in Hinit. injection Hinit as <- _. reflexivity. }
  rewrite keep_attribute_get, (@dict_get_rev k kwargs Hnd).
  destruct (existsb (String.eqb k) variable.allowed_attributes); [| reflexivity].
  now destruct (dict_get k kwargs).
Qed.

Lemma Variable_attributes_witness :
  dict_get "wavelength"
           [("surface_number"%string, PyInt 2); ("wavelength"%string, PyFloat 0.55)]
  = if existsb (String.eqb "wavelength") variable.allowed_attributes
    then dict_get "wavelength"
                  [("surface_number"%string, PyInt 2);
                   ("foo"%string, PyInt 1);
                   ("wavelength"%string, PyFloat 0.55)]
    else None.
Proof.
  apply (@Variable_attributes
           _ stub.in_place (PyRef 0) "radius" PyNone PyNone
           [("surface_number"%string, PyInt 2); ("foo"%string, PyInt 1);
            ("wavelength"%string, PyFloat 0.55)]
           {| variable.world := [PyFloat 10; PyFloat 20; PyFloat 30];
              variable.stdout := [] |}
           {| variable.world := [PyFloat 10; PyFloat 20; PyFloat 30];
              variable.stdout := ["Warning: foo is not a recognized attribute"%string] |}
           {| variable.optic := PyRef 0; variable.type := "radius";
              variable.min_val := PyNone; variable.max_val := PyNone;
              variable.kwargs := [("surface_number"%string, PyInt 2);
                                  ("foo"%string, PyInt 1);
                                  ("wavelength"%string, PyFloat 0.55)];
              variable.attrs := [("surface_number"%string, PyInt 2);
                                 ("wavelength"%string, PyFloat 0.55)];
              variable.variable_behavior :=
                Some (variable.RadiusVariable (PyRef 0) (PyRef 1) (PyInt 2)) |}
           "wavelength").
  - repeat constructor; simpl; intuition discriminate.
  - reflexivity.
Defined.

Section Required.
Import variable.
Context {W : Type} (api : Optic W).

(** A behaviour class called without one of its required keywords raises
    [TypeError], whatever else the keywords hold. *)
Lemma class_missing_parameter (optic : pyval) (type_name p : string) (kw : dict)
      (w : W) (variable_class : dict -> W -> result VariableBehavior) :
  lookup String.eqb type_name (variable_types api) = Some variable_class ->
  In p (required_parameters type_name) ->
  dict_get p kw = None ->
  variable_class
    (dict_merge [("type_name", PyStr type_name); ("optic", optic)]%string kw) w
  = Raise TypeError.
Proof.
  intros Hcls Hp Hnone.
  set (d := dict_merge [("type_name", PyStr type_name); ("optic", optic)]%string kw).
  unfold required_parameters in Hp. simpl in Hcls.
  repeat match type of Hcls with
         | (if ?b then _ else _) = _ => destruct b
         end;
    try discriminate Hcls; injection Hcls as <-;
    simpl in Hp;
    unfold RadiusVariable_init, ConicVariable_init, ThicknessVariable_init,
      IndexVariable_init, AsphereCoeffVariable_init;
    fold d;
    (destruct (no_self d) as [e | []] eqn:Hs;
     [apply no_self_raises in Hs; subst e; reflexivity |]);
    cbn [bind];
    (destruct (required "optic" d) as [e | o] eqn:Ho;
     [apply required_raises in Ho; subst e; reflexivity |]);
    cbn [bind];
    repeat match goal with
           | H : _ \/ _ |- _ => destruct H as [H | H]
           | H : False |- _ => contradiction
           end;
    subst p;
    try (unfold d; rewrite (@behavior_kwargs_missing optic type_name _ kw Hnone)
           by discriminate; reflexivity);
    (destruct (required "surface_number" d) as [e | i] eqn:Hi;
     [apply required_raises in Hi; subst e; reflexivity |]);
    cbn [bind];
    unfold d; rewrite (@behavior_kwargs_missing optic type_name _ kw Hnone)
      by discriminate; reflexivity.
Qed.
End Required.

(** X13: validation is deferred for an unknown type name only.  For a
    recognised type, a call that lacks a keyword the behaviour class requires
    ([surface_number] for all five, also [wavelength] for [index] and
    [coeff_number] for [asphere_coeff]) raises [TypeError] from the
    constructor itself, in every state and whatever the other keywords. *)
Theorem Variable_missing_parameter {W : Type} (api : variable.Optic W)
        (optic : pyval) (type_name : string) (min_val max_val : pyval)
        (kwargs : dict) (st : variable.state W) (p : string) :
  In p (required_parameters type_name) ->
  dict_get p kwargs = None ->
  variable.__init__ api optic type_name min_val max_val kwargs st = Raise TypeError.
Proof.
  intros Hp Hnone. rewrite init_run.
  destruct (lookup String.eqb type_name (variable.variable_types api))
    as [cls |] eqn:Hcls.
  - now rewrite (@class_missing_parameter W api optic type_name p kwargs
                                          (variable.world st) cls Hcls Hp Hnone).
  - exfalso. unfold required_parameters in Hp. simpl in Hcls.
    repeat match type of Hcls with
           | (if ?b then _ else _) = _ => destruct b
           end; try discriminate Hcls; exact Hp.
Qed.

Lemma Variable_missing_parameter_witness :
  variable.__init__ bench_optic (PyRef 0) "index" PyNone PyNone
                    [("surface_number"%string, PyInt 1)] bench_state
  = Raise TypeError.
Proof.
  apply (@Variable_missing_parameter _ bench_optic (PyRef 0) "index" PyNone PyNone
                                     [("surface_number"%string, PyInt 1)]
                                     bench_state "wavelength").
  - simpl. tauto.
  - reflexivity.
Defined.

Section Bound.
Import variable.
Context {W : Type} (api : Optic W).

Lemma required_bound (optic : pyval) (type_name f : string) (kw : dict) :
  kwargs_ok kw ->
  f <> "type_name"%string -> f <> "optic"%string ->
  required f (dict_merge [("type_name", PyStr type_name); ("optic", optic)]%string kw)
  = match dict_get f kw with Some v => Return v | None => Raise TypeError end.
Proof.
  intros Hok Ht Ho. unfold required. rewrite (behavior_kwargs_get optic type_name f Hok).
  destruct (String.eqb_spec f "type_name"); [contradiction |].
  destruct (String.eqb_spec f "optic"); [contradiction | reflexivity].
Qed.

Lemma required_optic (optic : pyval) (type_name : string) (kw : dict) :
  kwargs_ok kw ->
  required "optic"
           (dict_merge [("type_name", PyStr type_name); ("optic", optic)]%string kw)
  = Return optic.
Proof.
  intros Hok. unfold required.
  now rewrite (behavior_kwargs_get optic type_name "optic" Hok).
Qed.

(** What a behaviour class makes of well-formed keywords. *)
Lemma class_binding (optic : pyval) (type_name : string) (kw : dict) (w : W)
      (variable_class : dict -> W -> result VariableBehavior) (b : VariableBehavior) :
  kwargs_ok kw ->
  lookup String.eqb type_name (variable_types api) = Some variable_class ->
  variable_class
    (dict_merge [("type_name", PyStr type_name); ("optic", optic)]%string kw) w
  = Return b ->
  behavior_class b = type_name
  /\ behavior_optic b = optic
  /\ surface_group api optic w = Return (behavior_surfaces b)
  /\ dict_get "surface_number" kw = Some (behavior_surface_number b)
  /\ match behavior_parameter b with
     | Some (name, value) => dict_get name kw = Some value
     | None => True
     end.
Proof.
  intros Hok Hcls Hb.
  set (d := dict_merge [("type_name", PyStr type_name); ("optic", optic)]%string kw)
    in *.
  assert (required "optic" d = Return optic) as Hoptic by now apply required_optic.
  assert (required "surface_number" d
          = match dict_get "surface_number" kw with
            | Some v => Return v
            | None => Raise TypeError
            end) as Hnum by (apply required_bound; [exact Hok | discriminate | discriminate]).
  assert (required "wavelength" d
          = match dict_get "wavelength" kw with
            | Some v => Return v
            | None => Raise TypeError
            end) as Hwave by (apply required_bound; [exact Hok | discriminate | discriminate]).
  assert (required "coeff_number" d
          = match dict_get "coeff_number" kw with
            | Some v => Return v
            | None => Raise TypeError
            end) as Hcoeff by (apply required_bound; [exact Hok | discriminate | discriminate]).
  simpl in Hcls.
  destruct (String.eqb_spec type_name "radius") as [-> | _];
    [| destruct (String.eqb_spec type_name "conic") as [-> | _];
       [| destruct (String.eqb_spec type_name "thickness") as [-> | _];
          [| destruct (String.eqb_spec type_name "index") as [-> | _];
             [| destruct (String.eqb_spec type_name "asphere_coeff") as [-> | _];
                [| discriminate Hcls]]]]];
    injection Hcls as <-;
    unfold RadiusVariable_init, ConicVariable_init, ThicknessVariable_init,
      IndexVariable_init, AsphereCoeffVariable_init in Hb;
    fold d in Hb;
    (destruct (no_self d) as [e | []]; [discriminate Hb |]);
    cbn [bind] in Hb; rewrite Hoptic in Hb; unfold Return in Hb; cbn [bind] in Hb;
    rewrite Hnum in Hb;
    (destruct (dict_get "surface_number" kw) as [i |] eqn:Hi; [| discriminate Hb]);
    unfold Return in Hb; cbn [bind] in Hb;
    rewrite ?Hwave, ?Hcoeff in Hb;
    try (destruct (dict_get "wavelength" kw) as [wl |] eqn:Hwl; [| discriminate Hb]);
    try (destruct (dict_get "coeff_number" kw) as [c |] eqn:Hc; [| discriminate Hb]);
    unfold Return in Hb; cbn [bind] in Hb;
    unfold VariableBehavior_init in Hb;
    match type of Hb with
    | context [if ?c then _ else _] => destruct c; [discriminate Hb |]
    end;
    (destruct (surface_group api optic w) as [e | sg]; [discriminate Hb |]);
    cbn [bind] in Hb; injection Hb as <-;
    repeat split; try reflexivity; assumption.
Qed.
End Bound.

(** X14: with well-formed keywords, a [Variable] of a recognised type that
    was constructed holds a behaviour of the class registered for the type
    name, whose optic is the optic given, whose surface group is what
    [optic.surface_group] was at construction, whose [surface_number] is the
    keyword of that name, and whose [wavelength] or [coeff_number] (for
    [index] and [asphere_coeff]) is the keyword of that name; the other
    keywords do not reach the behaviour. *)
Theorem Variable_binding {W : Type} (api : variable.Optic W)
        (optic : pyval) (type_name : string) (min_val max_val : pyval)
        (kwargs : dict) (st st' : variable.state W) (v : variable.Var) :
  kwargs_ok kwargs ->
  In type_name recognised_types ->
  variable.__init__ api optic type_name min_val max_val kwargs st = Return (v, st') ->
  exists b : variable.VariableBehavior,
    variable.variable_behavior v = Some b
    /\ behavior_class b = type_name
    /\ behavior_optic b = optic
    /\ variable.surface_group api optic (variable.world st)
       = Return (behavior_surfaces b)
    /\ dict_get "surface_number" kwargs = Some (behavior_surface_number b)
    /\ match behavior_parameter b with
       | Some (name, value) => dict_get name kwargs = Some value
       | None => True
       end.
Proof.
  intros Hok Htype Hinit. rewrite init_run in Hinit.
  destruct (recognised_type api Htype) as [cls Hcls]. rewrite Hcls in Hinit.
  destruct (cls _ (variable.world st)) as [e | b] eqn:Hb; [discriminate Hinit |].
  unfold Return in Hinit. injection Hinit as <- _.
  exists b. split; [reflexivity |].
  exact (@class_binding W api optic type_name kwargs (variable.world st) cls b
                        Hok Hcls Hb).
Qed.

Lemma Variable_binding_witness :
  exists b : variable.VariableBehavior,
    Some (variable.IndexVariable (PyRef 0) (PyRef 1) (PyInt 1) (PyFloat 0.55)) = Some b
    /\ behavior_class b = "index"%string
    /\ behavior_optic b = PyRef 0
    /\ variable.surface_group bench_optic (PyRef 0) (variable.world bench_state)
       = Return (behavior_surfaces b)
    /\ dict_get "surface_number"
                [("wavelength"%string, PyFloat 0.55); ("foo"%string, PyInt 7);
                 ("surface_number"%string, PyInt 1)]
       = Some (behavior_surface_number b)
    /\ match behavior_parameter b with
       | Some (name, value) =>
           dict_get name [("wavelength"%string, PyFloat 0.55); ("foo"%string, PyInt 7);
                          ("surface_number"%string, PyInt 1)]
           = Some value
       | None => True
       end.
Proof.
  apply (@Variable_binding
           _ bench_optic (PyRef 0) "index" PyNone PyNone
           [("wavelength"%string, PyFloat 0.55); ("foo"%string, PyInt 7);
            ("surface_number"%string, PyInt 1)]
           bench_state
           {| variable.world := variable.world bench_state;
              variable.stdout := ["Warning: foo is not a recognized attribute"%string] |}
           {| variable.optic := PyRef 0; variable.type := "index";
              variable.min_val := PyNone; variable.max_val := PyNone;
              variable.kwargs := [("wavelength"%string, PyFloat 0.55);
                                  ("foo"%string, PyInt 7);
                                  ("surface_number"%string, PyInt 1)];
              variable.attrs := [("wavelength"%string, PyFloat 0.55);
                                 ("surface_number"%string, PyInt 1)];
              variable.variable_behavior :=
                Some (variable.IndexVariable (PyRef 0) (PyRef 1) (PyInt 1)
                                             (PyFloat 0.55)) |}).
  - split.
    + repeat constructor; simpl; intuition discriminate.
    + intros k Hk. simpl in Hk.
      repeat (destruct Hk as [<- | Hk]; [reflexivity |]). contradiction.
  - simpl. tauto.
  - reflexivity.
Defined.

(** ** Variable: the other four quantities *)

Section Quantities.
Import variable.
Context {W : Type} (api : Optic W).

Lemma init_surface (type_name : string)
      (make : pyval -> pyval -> pyval -> VariableBehavior)
      (optic min_val max_val s : pyval) (st : state W) :
  (type_name = "conic"%string /\ make = ConicVariable)
  \/ (type_name = "thickness"%string /\ make = ThicknessVariable) ->
  __init__ api optic type_name min_val max_val [("surface_number", s)]%string st
  = match surface_group api optic (world st) with
    | inl e => inl e
    | inr sg =>
        Return ({| optic := optic; type := type_name;
                   min_val := min_val; max_val := max_val;
                   kwargs := [("surface_number", s)]%string;
                   attrs := [("surface_number", s)]%string;
                   variable_behavior := Some (make optic sg s) |},
                {| world := world st; stdout := stdout st |})
    end.
Proof.
  intros [[-> ->] | [-> ->]]; rewrite init_run; cbn;
    (destruct (surface_group api optic (world st)) as [e | sg]; [reflexivity |]);
    cbn; now rewrite app_nil_r.
Qed.

Lemma init_index (optic min_val max_val s wavelength : pyval) (st : state W) :
  __init__ api optic "index" min_val max_val
           [("surface_number", s); ("wavelength", wavelength)]%string st
  = match surface_group api optic (world st) with
    | inl e => inl e
    | inr sg =>
        Return ({| optic := optic; type := "index";
                   min_val := min_val; max_val := max_val;
                   kwargs := [("surface_number", s); ("wavelength", wavelength)]%string;
                   attrs := [("surface_number", s); ("wavelength", wavelength)]%string;
                   variable_behavior := Some (IndexVariable optic sg s wavelength) |},
                {| world := world st; stdout := stdout st |})
    end.
Proof.
  rewrite init_run. cbn.
  destruct (surface_group api optic (world st)) as [e | sg]; [reflexivity |].
  cbn. now rewrite app_nil_r.
Qed.

Lemma init_asphere (optic min_val max_val s k : pyval) (st : state W) :
  __init__ api optic "asphere_coeff" min_val max_val
           [("surface_number", s); ("coeff_number", k)]%string st
  = match surface_group api optic (world st) with
    | inl e => inl e
    | inr sg =>
        Return ({| optic := optic; type := "asphere_coeff";
                   min_val := min_val; max_val := max_val;
                   kwargs := [("surface_number", s); ("coeff_number", k)]%string;
                   attrs := [("surface_number", s); ("coeff_number", k)]%string;
                   variable_behavior := Some (AsphereCoeffVariable optic sg s k) |},
                {| world := world st; stdout := stdout st |})
    end.
Proof.
  rewrite init_run. cbn.
  destruct (surface_group api optic (world st)) as [e | sg]; [reflexivity |].
  cbn. now rewrite app_nil_r.
Qed.
End Quantities.

Lemma at_index_set {A : Type} (l l' : list A) (i : pyval) (v : A) :
  set_at_index l i v = Return l' -> at_index l' i = Return v.
Proof.
  destruct i; simpl; try discriminate. apply getitem_setitem.
Qed.

Lemma bench_conic_contract : conic_contract bench_optic (PyRef 0).
Proof.
  intros value i w w' Hset. exists (PyRef 1). split; [reflexivity |].
  simpl in *.
  destruct (set_at_index (bench_conic w) i value) as [e | l] eqn:Hl;
    [discriminate Hset |].
  cbn [bind] in Hset. unfold Return in Hset.
  assert (bench_conic w' = l) as -> by (injection Hset as <-; reflexivity).
  exact (at_index_set _ _ _ Hl).
Qed.

Lemma bench_thickness_contract : thickness_contract bench_optic (PyRef 0).
Proof.
  intros value i w w' Hset. exists (PyRef 1). split; [reflexivity |].
  simpl in *.
  destruct (set_at_index (bench_thickness w) i value) as [e | l] eqn:Hl;
    [discriminate Hset |].
  cbn [bind] in Hset. unfold Return in Hset.
  assert (bench_thickness w' = l) as -> by (injection Hset as <-; reflexivity).
  exact (at_index_set _ _ _ Hl).
Qed.

Lemma bench_index_contract : index_contract bench_optic (PyRef 0).
Proof.
  intros value i wavelength w w' Hset. simpl in *.
  destruct (set_at_index (bench_index w) i value) as [e | l] eqn:Hl;
    [discriminate Hset |].
  cbn [bind] in Hset. unfold Return in Hset.
  assert (bench_index w' = l) as -> by (injection Hset as <-; reflexivity).
  exact (at_index_set _ _ _ Hl).
Qed.

Lemma bench_asphere_contract : asphere_contract bench_optic (PyRef 0).
Proof.
  intros value i k w w' Hset. exists (PyRef 1). split; [reflexivity |].
  simpl in *.
  destruct (at_index (bench_coeffs w) i) as [e | c]; [discriminate Hset |].
  cbn [bind] in Hset.
  destruct (set_at_index c k value) as [e | c'] eqn:Hc'; [discriminate Hset |].
  cbn [bind] in Hset.
  destruct (set_at_index (bench_coeffs w) i c') as [e | l] eqn:Hl;
    [discriminate Hset |].
  cbn [bind] in Hset. unfold Return in Hset.
  assert (bench_coeffs w' = l) as -> by (injection Hset as <-; reflexivity).
  rewrite (at_index_set _ _ _ Hl). cbn [bind Return].
  exact (at_index_set _ _ _ Hc').
Qed.

(** X15: the wavelength of an [index] variable takes no part in a write.
    Two variables on the same optic and surface that differ in
    [wavelength] only are constructed alike, and [update(x)] on either is
    [optic.set_index(x, surface_number)]: the same change of the optic, the
    same exception if the setter raises. *)
Theorem Index_update_ignores_wavelength {W : Type} (api : variable.Optic W)
        (optic min_val max_val s wavelength wavelength' : pyval)
        (st st1 : variable.state W) (v : variable.Var) :
  variable.__init__ api optic "index" min_val max_val
                    [("surface_number"%string, s); ("wavelength"%string, wavelength)] st
  = Return (v, st1) ->
  exists v' : variable.Var,
    variable.__init__ api optic "index" min_val max_val
                      [("surface_number"%string, s); ("wavelength"%string, wavelength')] st
    = Return (v', st1)
    /\ forall (x : pyval) (st_before : variable.state W),
        variable.update api v' x st_before = variable.update api v x st_before
        /\ variable.update api v x st_before
           = match variable.set_index api optic x s (variable.world st_before) with
             | inl e => inl e
             | inr w' => Return (tt, {| variable.world := w';
                                        variable.stdout := variable.stdout st_before |})
             end.
Proof.
  intros Hinit. rewrite init_index in Hinit. rewrite init_index.
  destruct (variable.surface_group api optic (variable.world st)) as [e | sg];
    [discriminate Hinit |].
  unfold Return in Hinit. injection Hinit as <- <-.
  eexists. split; [reflexivity |].
  intros x st_before. split; reflexivity.
Qed.

Lemma Index_update_ignores_wavelength_witness :
  exists v' : variable.Var,
    variable.__init__ bench_optic (PyRef 0) "index" PyNone PyNone
                      [("surface_number"%string, PyInt 1);
                       ("wavelength"%string, PyFloat 0.65)] bench_state
    = Return (v', bench_state)
    /\ forall (x : pyval) (st_before : variable.state bench),
        variable.update bench_optic v' x st_before
        = variable.update bench_optic
            {| variable.optic := PyRef 0; variable.type := "index";
               variable.min_val := PyNone; variable.max_val := PyNone;
               variable.kwargs := [("surface_number"%string, PyInt 1);
                                   ("wavelength"%string, PyFloat 0.55)];
               variable.attrs := [("surface_number"%string, PyInt 1);
                                  ("wavelength"%string, PyFloat 0.55)];
               variable.variable_behavior :=
                 Some (variable.IndexVariable (PyRef 0) (PyRef 1) (PyInt 1)
                                              (PyFloat 0.55)) |}
            x st_before
        /\ variable.update bench_optic
             {| variable.optic := PyRef 0; variable.type := "index";
                variable.min_val := PyNone; variable.max_val := PyNone;
                variable.kwargs := [("surface_number"%string, PyInt 1);
                                    ("wavelength"%string, PyFloat 0.55)];
                variable.attrs := [("surface_number"%string, PyInt 1);
                                   ("wavelength"%string, PyFloat 0.55)];
                variable.variable_behavior :=
                  Some (variable.IndexVariable (PyRef 0) (PyRef 1) (PyInt 1)
                                               (PyFloat 0.55)) |}
             x st_before
           = match variable.set_index bench_optic (PyRef 0) x (PyInt 1)
                                      (variable.world st_before) with
             | inl e => inl e
             | inr w' => Return (tt, {| variable.world := w';
                                        variable.stdout := variable.stdout st_before |})
             end.
Proof.
  apply (@Index_update_ignores_wavelength
           _ bench_optic (PyRef 0) PyNone PyNone (PyInt 1) (PyFloat 0.55) (PyFloat 0.65)
           bench_state bench_state).
  reflexivity.
Defined.

(** X16: an [index] variable reads through [optic.n(wavelength)] on the
    optic itself, not through the surface group taken at construction.  For
    an optic whose [n(wavelength)[i]] shows what [set_index(value, i)]
    stored, [update(x)] is [optic.set_index(x, surface_number)] and [value]
    is [x] afterwards, with no condition on [optic.surface_group]. *)
Theorem Index_round_trip {W : Type} (api : variable.Optic W)
        (optic min_val max_val s wavelength x : pyval)
        (st st1 st_before st2 : variable.state W) (v : variable.Var) :
  index_contract api optic ->
  variable.__init__ api optic "index" min_val max_val
                    [("surface_number"%string, s); ("wavelength"%string, wavelength)] st
  = Return (v, st1) ->
  variable.update api v x st_before = Return (tt, st2) ->
  variable.set_index api optic x s (variable.world st_before)
  = Return (variable.world st2)
  /\ variable.stdout st2 = variable.stdout st_before
  /\ variable.value api v st2 = Return (x, st2).
Proof.
  intros Hcontract Hinit Hupdate.
  rewrite init_index in Hinit.
  destruct (variable.surface_group api optic (variable.world st)) as [e | sg];
    [discriminate Hinit |].
  unfold Return in Hinit. injection Hinit as <- _.
  unfold variable.update, variable.update_value, variable.write in Hupdate.
  cbn in Hupdate.
  destruct (variable.set_index api optic x s (variable.world st_before))
    as [e | w'] eqn:Hset; [discriminate Hupdate |].
  unfold Return in Hupdate. injection Hupdate as <-. cbn.
  split; [reflexivity |]. split; [reflexivity |].
  unfold variable.value, variable.get_value, variable.read. cbn.
  now rewrite (Hcontract x s wavelength _ _ Hset).
Qed.

Lemma Index_round_trip_witness :
  variable.set_index bench_optic (PyRef 0) (PyFloat 1.7) (PyInt 1)
                     (variable.world bench_state)
  = Return {| bench_radii := [PyFloat 10; PyFloat 20; PyFloat 30];
              bench_conic := [PyFloat 0; PyFloat 0; PyFloat 0];
              bench_thickness := [PyFloat 1; PyFloat 2; PyFloat 3];
              bench_index := [PyFloat 1; PyFloat 1.7; PyFloat 1];
              bench_coeffs := [[PyFloat 0]; [PyFloat 0; PyFloat 0]; [PyFloat 0]] |}
  /\ @nil string = []
  /\ variable.value bench_optic
       {| variable.optic := PyRef 0; variable.type := "index";
          variable.min_val := PyNone; variable.max_val := PyNone;
          variable.kwargs := [("surface_number"%string, PyInt 1);
                              ("wavelength"%string, PyFloat 0.55)];
          variable.attrs := [("surface_number"%string, PyInt 1);
                             ("wavelength"%string, PyFloat 0.55)];
          variable.variable_behavior :=
            Some (variable.IndexVariable (PyRef 0) (PyRef 1) (PyInt 1)
                                         (PyFloat 0.55)) |}
       {| variable.world :=
            {| bench_radii := [PyFloat 10; PyFloat 20; PyFloat 30];
               bench_conic := [PyFloat 0; PyFloat 0; PyFloat 0];
               bench_thickness := [PyFloat 1; PyFloat 2; PyFloat 3];
               bench_index := [PyFloat 1; PyFloat 1.7; PyFloat 1];
               bench_coeffs := [[PyFloat 0]; [PyFloat 0; PyFloat 0]; [PyFloat 0]] |};
          variable.stdout := [] |}
     = Return (PyFloat 1.7,
               {| variable.world :=
                    {| bench_radii := [PyFloat 10; PyFloat 20; PyFloat 30];
                       bench_conic := [PyFloat 0; PyFloat 0; PyFloat 0];
                       bench_thickness := [PyFloat 1; PyFloat 2; PyFloat 3];
                       bench_index := [PyFloat 1; PyFloat 1.7; PyFloat 1];
                       bench_coeffs := [[PyFloat 0]; [PyFloat 0; PyFloat 0]; [PyFloat 0]] |};
                  variable.stdout := [] |}).
Proof.
  apply (@Index_round_trip
           _ bench_optic (PyRef 0) PyNone PyNone (PyInt 1) (PyFloat 0.55) (PyFloat 1.7)
           bench_state bench_state bench_state
           {| variable.world :=
                {| bench_radii := [PyFloat 10; PyFloat 20; PyFloat 30];
                   bench_conic := [PyFloat 0; PyFloat 0; PyFloat 0];
                   bench_thickness := [PyFloat 1; PyFloat 2; PyFloat 3];
                   bench_index := [PyFloat 1; PyFloat 1.7; PyFloat 1];
                   bench_coeffs := [[PyFloat 0]; [PyFloat 0; PyFloat 0]; [PyFloat 0]] |};
              variable.stdout := [] |}).
  - exact bench_index_contract.
  - reflexivity.
  - reflexivity.
Defined.

(** X17: a [conic] variable built as
    [Variable(optic, "conic", surface_number=s)] writes with
    [optic.set_conic(x, s)] and nothing else; on an optic that keeps the
    conic contract the optic's conic at [s] is then [x], and [value] is [x]
    provided [optic.surface_group] is still the surface group the variable
    took at construction. *)
Theorem Conic_round_trip {W : Type} (api : variable.Optic W)
        (optic min_val max_val s x : pyval)
        (st st1 st_before st2 : variable.state W) (v : variable.Var) :
  conic_contract api optic ->
  variable.__init__ api optic "conic" min_val max_val [("surface_number"%string, s)] st
  = Return (v, st1) ->
  variable.update api v x st_before = Return (tt, st2) ->
  variable.surface_group api optic (variable.world st2)
  = variable.surface_group api optic (variable.world st) ->
  variable.set_conic api optic x s (variable.world st_before)
  = Return (variable.world st2)
  /\ variable.stdout st2 = variable.stdout st_before
  /\ variable.value api v st2 = Return (x, st2).
Proof.
  intros Hcontract Hinit Hupdate Hstable.
  rewrite (@init_surface W api "conic" variable.ConicVariable) in Hinit
    by (left; split; reflexivity).
  destruct (variable.surface_group api optic (variable.world st)) as [e | sg] eqn:Hsg;
    [discriminate Hinit |].
  unfold Return in Hinit. injection Hinit as <- _.
  unfold variable.update, variable.update_value, variable.write in Hupdate.
  cbn in Hupdate.
  destruct (variable.set_conic api optic x s (variable.world st_before))
    as [e | w'] eqn:Hset; [discriminate Hupdate |].
  unfold Return in Hupdate. injection Hupdate as <-. cbn.
  destruct (Hcontract x s _ _ Hset) as [sg' [Hsg' Hread]].
  cbn in Hstable. rewrite Hsg' in Hstable.
  unfold Return in Hstable. injection Hstable as ->.
  split; [reflexivity |]. split; [reflexivity |].
  unfold variable.value, variable.get_value, variable.read. cbn.
  now rewrite Hread.
Qed.

Lemma Conic_round_trip_witness :
  variable.set_conic bench_optic (PyRef 0) (PyFloat (-1)) (PyInt 2)
                     (variable.world bench_state)
  = Return (variable.world (bench_with_conic [PyFloat 0; PyFloat 0; PyFloat (-1)]))
  /\ variable.stdout (bench_with_conic [PyFloat 0; PyFloat 0; PyFloat (-1)])
     = variable.stdout bench_state
  /\ variable.value bench_optic
       {| variable.optic := PyRef 0; variable.type := "conic";
          variable.min_val := PyNone; variable.max_val := PyNone;
          variable.kwargs := [("surface_number"%string, PyInt 2)];
          variable.attrs := [("surface_number"%string, PyInt 2)];
          variable.variable_behavior :=
            Some (variable.ConicVariable (PyRef 0) (PyRef 1) (PyInt 2)) |}
       (bench_with_conic [PyFloat 0; PyFloat 0; PyFloat (-1)])
     = Return (PyFloat (-1), bench_with_conic [PyFloat 0; PyFloat 0; PyFloat (-1)]).
Proof.
  apply (@Conic_round_trip
           _ bench_optic (PyRef 0) PyNone PyNone (PyInt 2) (PyFloat (-1))
           bench_state bench_state bench_state
           (bench_with_conic [PyFloat 0; PyFloat 0; PyFloat (-1)])).
  - exact bench_conic_contract.
  - reflexivity.
  - reflexivity.
  - reflexivity.
Defined.

(** X18: a [thickness] variable built as
    [Variable(optic, "thickness", surface_number=s)] writes with
    [optic.set_thickness(x, s)] and nothing else, and reads the first entry
    of [get_thickness(s)] of the surface group taken at construction: on an
    optic that keeps the thickness contract [value] is [x] after
    [update(x)], provided [optic.surface_group] is still that surface
    group. *)
Theorem Thickness_round_trip {W : Type} (api : variable.Optic W)
        (optic min_val max_val s x : pyval)
        (st st1 st_before st2 : variable.state W) (v : variable.Var) :
  thickness_contract api optic ->
  variable.__init__ api optic "thickness" min_val max_val
                    [("surface_number"%string, s)] st
  = Return (v, st1) ->
  variable.update api v x st_before = Return (tt, st2) ->
  variable.surface_group api optic (variable.world st2)
  = variable.surface_group api optic (variable.world st) ->
  variable.set_thickness api optic x s (variable.world st_before)
  = Return (variable.world st2)
  /\ variable.stdout st2 = variable.stdout st_before
  /\ variable.value api v st2 = Return (x, st2).
Proof.
  intros Hcontract Hinit Hupdate Hstable.
  rewrite (@init_surface W api "thickness" variable.ThicknessVariable) in Hinit
    by (right; split; reflexivity).
  destruct (variable.surface_group api optic (variable.world st)) as [e | sg] eqn:Hsg;
    [discriminate Hinit |].
  unfold Return in Hinit. injection Hinit as <- _.
  unfold variable.update, variable.update_value, variable.write in Hupdate.
  cbn in Hupdate.
  destruct (variable.set_thickness api optic x s (variable.world st_before))
    as [e | w'] eqn:Hset; [discriminate Hupdate |].
  unfold Return in Hupdate. injection Hupdate as <-. cbn.
  destruct (Hcontract x s _ _ Hset) as [sg' [Hsg' Hread]].
  cbn in Hstable. rewrite Hsg' in Hstable.
  unfold Return in Hstable. injection Hstable as ->.
  split; [reflexivity |]. split; [reflexivity |].
  unfold variable.value, variable.get_value, variable.read. cbn.
  now rewrite Hread.
Qed.

Lemma Thickness_round_trip_witness :
  variable.set_thickness bench_optic (PyRef 0) (PyFloat 5) (PyInt (-1))
                         (variable.world bench_state)
  = Return (variable.world (bench_with_thickness [PyFloat 1; PyFloat 2; PyFloat 5]))
  /\ variable.stdout (bench_with_thickness [PyFloat 1; PyFloat 2; PyFloat 5])
     = variable.stdout bench_state
  /\ variable.value bench_optic
       {| variable.optic := PyRef 0; variable.type := "thickness";
          variable.min_val := PyNone; variable.max_val := PyNone;
          variable.kwargs := [("surface_number"%string, PyInt (-1))];
          variable.attrs := [("surface_number"%string, PyInt (-1))];
          variable.variable_behavior :=
            Some (variable.ThicknessVariable (PyRef 0) (PyRef 1) (PyInt (-1))) |}
       (bench_with_thickness [PyFloat 1; PyFloat 2; PyFloat 5])
     = Return (PyFloat 5, bench_with_thickness [PyFloat 1; PyFloat 2; PyFloat 5]).
Proof.
  apply (@Thickness_round_trip
           _ bench_optic (PyRef 0) PyNone PyNone (PyInt (-1)) (PyFloat 5)
           bench_state bench_state bench_state
           (bench_with_thickness [PyFloat 1; PyFloat 2; PyFloat 5])).
  - exact bench_thickness_contract.
  - reflexivity.
  - reflexivity.
  - reflexivity.
Defined.

(** X19: an [asphere_coeff] variable built as
    [Variable(optic, "asphere_coeff", surface_number=s, coeff_number=k)]
    writes with [optic.set_asphere_coeff(x, s, k)], surface first and
    coefficient second, and reads [surfaces[s].geometry.c[k]] of the surface
    group taken at construction: on an optic that keeps the coefficient
    contract [value] is [x] after [update(x)], provided
    [optic.surface_group] is still that surface group. *)
Theorem Asphere_round_trip {W : Type} (api : variable.Optic W)
        (optic min_val max_val s k x : pyval)
        (st st1 st_before st2 : variable.state W) (v : variable.Var) :
  asphere_contract api optic ->
  variable.__init__ api optic "asphere_coeff" min_val max_val
                    [("surface_number"%string, s); ("coeff_number"%string, k)] st
  = Return (v, st1) ->
  variable.update api v x st_before = Return (tt, st2) ->
  variable.surface_group api optic (variable.world st2)
  = variable.surface_group api optic (variable.world st) ->
  variable.set_asphere_coeff api optic x s k (variable.world st_before)
  = Return (variable.world st2)
  /\ variable.stdout st2 = variable.stdout st_before
  /\ variable.value api v st2 = Return (x, st2).
Proof.
  intros Hcontract Hinit Hupdate Hstable.
  rewrite init_asphere in Hinit.
  destruct (variable.surface_group api optic (variable.world st)) as [e | sg] eqn:Hsg;
    [discriminate Hinit |].
  unfold Return in Hinit. injection Hinit as <- _.
  unfold variable.update, variable.update_value, variable.write in Hupdate.
  cbn in Hupdate.
  destruct (variable.set_asphere_coeff api optic x s k (variable.world st_before))
    as [e | w'] eqn:Hset; [discriminate Hupdate |].
  unfold Return in Hupdate. injection Hupdate as <-. cbn.
  destruct (Hcontract x s k _ _ Hset) as [sg' [Hsg' Hread]].
  cbn in Hstable. rewrite Hsg' in Hstable.
  unfold Return in Hstable. injection Hstable as ->.
  split; [reflexivity |]. split; [reflexivity |].
  unfold variable.value, variable.get_value, variable.read. cbn.
  now rewrite Hread.
Qed.

Lemma Asphere_round_trip_witness :
  variable.set_asphere_coeff bench_optic (PyRef 0) (PyFloat 0.25) (PyInt 1) (PyInt 0)
                             (variable.world bench_state)
  = Return (variable.world
              (bench_with_coeffs [[PyFloat 0]; [PyFloat 0.25; PyFloat 0]; [PyFloat 0]]))
  /\ variable.stdout
       (bench_with_coeffs [[PyFloat 0]; [PyFloat 0.25; PyFloat 0]; [PyFloat 0]])
     = variable.stdout bench_state
  /\ variable.value bench_optic
       {| variable.optic := PyRef 0; variable.type := "asphere_coeff";
          variable.min_val := PyNone; variable.max_val := PyNone;
          variable.kwargs := [("surface_number"%string, PyInt 1);
                              ("coeff_number"%string, PyInt 0)];
          variable.attrs := [("surface_number"%string, PyInt 1);
                             ("coeff_number"%string, PyInt 0)];
          variable.variable_behavior :=
            Some (variable.AsphereCoeffVariable (PyRef 0) (PyRef 1) (PyInt 1)
                                                (PyInt 0)) |}
       (bench_with_coeffs [[PyFloat 0]; [PyFloat 0.25; PyFloat 0]; [PyFloat 0]])
     = Return (PyFloat 0.25,
               bench_with_coeffs [[PyFloat 0]; [PyFloat 0.25; PyFloat 0]; [PyFloat 0]]).
Proof.
  apply (@Asphere_round_trip
           _ bench_optic (PyRef 0) PyNone PyNone (PyInt 1) (PyInt 0) (PyFloat 0.25)
           bench_state bench_state bench_state
           (bench_with_coeffs [[PyFloat 0]; [PyFloat 0.25; PyFloat 0]; [PyFloat 0]])).
  - exact bench_asphere_contract.
  - reflexivity.
  - reflexivity.
  - reflexivity.
Defined.
